(** * python-homewizard-energy: the typed models and the device client

    A shallow embedding of [homewizard_energy/models.py] and
    [homewizard_energy/homewizard_energy.py].

    - Python values decoded from JSON are the inductive [pyval]; a [dict] is
      an association list in insertion order, [d.get(k)] is [dict_get].
    - A raised exception is [Raise e]; a coroutine of the client is a
      function [World -> result A * World], the world holding the client
      object, the requests put on the wire and the records of
      [_LOGGER.error] (debug records are left out).
    - [datetime.strptime] with the format ["%y%m%d%H%M%S"] is modelled with
      the regular expressions CPython's [_strptime.TimeRE] builds for the six
      directives, matched with backtracking in alternation order. *)

From Stdlib Require Import ZArith List Bool String Ascii Lia DecimalString DecimalZ.
Import ListNotations.

Open Scope string_scope.
Open Scope Z_scope.

(* ================================================================== *)
(** * Python values, exceptions, results *)

Module Py.

#[local] Set Warnings "-register-all".

(** What [json.loads] produces. A float [PyFloat m e] stands for [m * 2^e];
    strings are sequences of code points below 256. *)
Inductive pyval : Type :=
| PyNone
| PyBool (b : bool)
| PyInt (z : Z)
| PyFloat (m e : Z)
| PyStr (s : string)
| PyList (l : list pyval)
| PyDict (d : list (string * pyval)).

Definition dict := list (string * pyval).

(** [d.get(key)]: the value stored under [key], [None] when there is none. *)
Fixpoint dict_get (d : dict) (key : string) : pyval :=
  match d with
  | [] => PyNone
  | (k, v) :: rest => if String.eqb k key then v else dict_get rest key
  end.

(** [key in d] *)
Fixpoint dict_has (d : dict) (key : string) : bool :=
  match d with
  | [] => false
  | (k, _) :: rest => String.eqb k key || dict_has rest key
  end.

(** The exception a [RequestError] was raised [from]. *)
Inductive cause : Type :=
| NoCause
| FromTimeoutError        (* asyncio.TimeoutError *)
| FromClientError.        (* aiohttp ClientError / ClientResponseError *)

(** The exceptions of [errors.py] ([RequestError], [DisabledError],
    [UnsupportedError]) and the built-in ones the code raises or runs into;
    [ValueError] carries its [args]. *)
Inductive exn : Type :=
| RequestError (msg : string) (from : cause)
| DisabledError (msg : string)
| UnsupportedError (msg : string)
| ValueError (args : list (option string))
| AttributeError (msg : string)
| TypeError (msg : string)
| JSONDecodeError.

Inductive result (A : Type) : Type :=
| Ok (a : A)
| Raise (e : exn).

Arguments Ok {A} a.
Arguments Raise {A} e.

Definition bind {A B : Type} (r : result A) (k : A -> result B) : result B :=
  match r with
  | Ok a => k a
  | Raise e => Raise e
  end.

(** Python's built-in [repr], which the interpreter provides: it is used for
    [str(x)] of a float, a list or a dict and for the ["%r"] of strptime's
    error message. *)
Class Builtins : Type := { py_repr : pyval -> string }.

Definition str_of_Z (z : Z) : string := NilZero.string_of_int (Z.to_int z).

(** [str(x)] *)
Definition py_str `{Builtins} (v : pyval) : string :=
  match v with
  | PyNone => "None"
  | PyBool true => "True"
  | PyBool false => "False"
  | PyInt z => str_of_Z z
  | PyStr s => s
  | PyFloat _ _ | PyList _ | PyDict _ => py_repr v
  end.

(** [type(x).__name__] *)
Definition type_name (v : pyval) : string :=
  match v with
  | PyNone => "NoneType"
  | PyBool _ => "bool"
  | PyInt _ => "int"
  | PyFloat _ _ => "float"
  | PyStr _ => "str"
  | PyList _ => "list"
  | PyDict _ => "dict"
  end.

(** [x.get] on something that is not a dict. *)
Definition no_get (v : pyval) : exn :=
  AttributeError ("'" ++ type_name v ++ "' object has no attribute 'get'").

Definition as_dict (v : pyval) : result dict :=
  match v with
  | PyDict d => Ok d
  | _ => Raise (no_get v)
  end.

End Py.
Export Py.

Declare Scope py_scope.
Delimit Scope py_scope with py.
Notation "x <- c ;; k" := (bind c (fun x => k))
  (at level 61, c at next level, right associativity) : py_scope.

(* ================================================================== *)
(** * datetime, strptime and strftime for ["%y%m%d%H%M%S"] *)

Module Datetime.

Record datetime : Type := mkDatetime {
  year : Z;
  month : Z;
  day : Z;
  hour : Z;
  minute : Z;
  second : Z
}.

(** [datetime._is_leap] and [datetime._days_in_month] *)
Definition is_leap (y : Z) : bool :=
  (y mod 4 =? 0) && (negb (y mod 100 =? 0) || (y mod 400 =? 0)).

Definition days_in_month (y m : Z) : Z :=
  if m =? 2 then (if is_leap y then 29 else 28)
  else if (m =? 4) || (m =? 6) || (m =? 9) || (m =? 11) then 30
  else 31.

(** ** The regular expressions of the directives *)

Inductive cls : Type :=
| Digit                       (* \d *)
| Range (lo hi : ascii)       (* [lo-hi] *)
| Lit (c : ascii).

Definition is_digit (c : ascii) : bool :=
  (48 <=? nat_of_ascii c)%nat && (nat_of_ascii c <=? 57)%nat.

Definition cls_match (k : cls) (c : ascii) : bool :=
  match k with
  | Digit => is_digit c
  | Range lo hi =>
      (nat_of_ascii lo <=? nat_of_ascii c)%nat && (nat_of_ascii c <=? nat_of_ascii hi)%nat
  | Lit x => Ascii.eqb x c
  end.

(** One alternative is a sequence of character classes; a directive is its
    alternatives in the order the regular expression lists them. *)
Definition alt := list cls.
Definition directive := list alt.

Definition re_y : directive :=      (* (?P<y>\d\d) *)
  [[Digit; Digit]].
Definition re_m : directive :=      (* (?P<m>1[0-2]|0[1-9]|[1-9]) *)
  [[Lit "1"; Range "0" "2"]; [Lit "0"; Range "1" "9"]; [Range "1" "9"]].
Definition re_d : directive :=      (* (?P<d>3[0-1]|[1-2]\d|0[1-9]|[1-9]| [1-9]) *)
  [[Lit "3"; Range "0" "1"]; [Range "1" "2"; Digit]; [Lit "0"; Range "1" "9"];
   [Range "1" "9"]; [Lit " "; Range "1" "9"]].
Definition re_H : directive :=      (* (?P<H>2[0-3]|[0-1]\d|\d) *)
  [[Lit "2"; Range "0" "3"]; [Range "0" "1"; Digit]; [Digit]].
Definition re_M : directive :=      (* (?P<M>[0-5]\d|\d) *)
  [[Range "0" "5"; Digit]; [Digit]].
Definition re_S : directive :=      (* (?P<S>6[0-1]|[0-5]\d|\d) *)
  [[Lit "6"; Range "0" "1"]; [Range "0" "5"; Digit]; [Digit]].

(** The text an alternative takes from the front of [s], and what is left. *)
Fixpoint match_alt (a : alt) (s : list ascii) : option (list ascii * list ascii) :=
  match a with
  | [] => Some ([], s)
  | k :: a' =>
      match s with
      | [] => None
      | c :: s' =>
          if cls_match k c then
            match match_alt a' s' with
            | Some (tok, rest) => Some (c :: tok, rest)
            | None => None
            end
          else None
      end
  end.

(** Backtracking: the first alternative, in order, with which the rest of the
    pattern (the continuation [k]) matches too. *)
Fixpoint try_alts {R : Type} (alts : directive) (s : list ascii)
         (k : list ascii -> list ascii -> option R) : option R :=
  match alts with
  | [] => None
  | a :: more =>
      match match_alt a s with
      | Some (tok, rest) =>
          match k tok rest with
          | Some r => Some r
          | None => try_alts more s k
          end
      | None => try_alts more s k
      end
  end.

Record groups : Type := mkGroups {
  g_y : list ascii; g_m : list ascii; g_d : list ascii;
  g_H : list ascii; g_M : list ascii; g_S : list ascii
}.

(** [format_regex.match(data_string)]: the groups and the unmatched tail. *)
Definition format_match (s : list ascii) : option (groups * list ascii) :=
  try_alts re_y s (fun y s1 =>
  try_alts re_m s1 (fun m s2 =>
  try_alts re_d s2 (fun d s3 =>
  try_alts re_H s3 (fun H s4 =>
  try_alts re_M s4 (fun M s5 =>
  try_alts re_S s5 (fun S s6 =>
    Some (mkGroups y m d H M S, s6))))))).

Definition digit_val (c : ascii) : Z := Z.of_nat (nat_of_ascii c) - 48.

(** [int(tok)] for a group's text: digits, after a space in the one
    alternative of [%d] that has it. *)
Fixpoint int_acc (acc : Z) (tok : list ascii) : Z :=
  match tok with
  | [] => acc
  | c :: rest =>
      if Ascii.eqb c " " then int_acc acc rest
      else int_acc (10 * acc + digit_val c) rest
  end.

Definition py_int (tok : list ascii) : Z := int_acc 0 tok.

(** [datetime.strptime(data_string, "%y%m%d%H%M%S")] *)
Definition strptime `{Builtins} (data_string : string) : result datetime :=
  match format_match (list_ascii_of_string data_string) with
  | None =>
      Raise (ValueError
        [Some ("time data " ++ py_repr (PyStr data_string)
               ++ " does not match format '%y%m%d%H%M%S'")])
  | Some (g, rest) =>
      match rest with
      | _ :: _ =>
          Raise (ValueError
            [Some ("unconverted data remains: " ++ string_of_list_ascii rest)])
      | [] =>
          let yy := py_int (g_y g) in
          let y := if yy <=? 68 then yy + 2000 else yy + 1900 in
          let m := py_int (g_m g) in
          let d := py_int (g_d g) in
          let s := py_int (g_S g) in
          if days_in_month y m <? d then
            Raise (ValueError [Some "day is out of range for month"])
          else if 59 <? s then
            Raise (ValueError [Some "second must be in 0..59"])
          else Ok (mkDatetime y m d (py_int (g_H g)) (py_int (g_M g)) s)
      end
  end.

(** Zero-padded two-digit decimal, as [%m], [%d], [%H], [%M], [%S] print. *)
Definition digit_char (n : Z) : ascii := ascii_of_nat (Z.to_nat (48 + n)).

Definition two_digits (n : Z) : string :=
  String (digit_char (n / 10 mod 10)) (String (digit_char (n mod 10)) EmptyString).

(** [dt.strftime("%y%m%d%H%M%S")] *)
Definition strftime (dt : datetime) : string :=
  two_digits (year dt mod 100) ++ two_digits (month dt) ++ two_digits (day dt)
  ++ two_digits (hour dt) ++ two_digits (minute dt) ++ two_digits (second dt).

(** [tok] is, as a whole, the text of one alternative of [D]. *)
Definition spells (D : directive) (tok : list ascii) : bool :=
  existsb (fun a => match match_alt a tok with
                    | Some (_, []) => true
                    | _ => false
                    end) D.

(** No alternative of [D] takes more than two characters. *)
Definition short (D : directive) : Prop :=
  Forall (fun a : alt => (List.length a <= 2)%nat) D.

End Datetime.
Export Datetime.

(* ================================================================== *)
(** * models.py *)

Module Models.

Local Open Scope py_scope.

(** ** Device *)

Record Device : Type := mkDevice {
  product_name : pyval;
  product_type : pyval;
  serial : pyval;
  api_version : pyval;
  firmware_version : pyval
}.

Definition Device_from_dict (data : pyval) : result Device :=
  d <- as_dict data ;;
  Ok (mkDevice (dict_get d "product_name") (dict_get d "product_type")
               (dict_get d "serial") (dict_get d "api_version")
               (dict_get d "firmware_version")).

(** ** ExternalDevice *)

Inductive DeviceType : Type :=
| UNKNOWN
| GAS_METER
| HEAT_METER
| WARM_WATER_METER
| WATER_METER
| INLET_HEAT_METER.

(** The lookup in the literal dict: a list or a dict as key is unhashable
    ([TypeError], which the [except KeyError] does not catch); every other
    key that is not one of the five strings is a [KeyError], hence
    [UNKNOWN]. *)
Definition DeviceType_from_string (value : pyval) : result DeviceType :=
  match value with
  | PyStr s =>
      Ok (if String.eqb s "gas_meter" then GAS_METER
          else if String.eqb s "heat_meter" then HEAT_METER
          else if String.eqb s "warm_water_meter" then WARM_WATER_METER
          else if String.eqb s "water_meter" then WATER_METER
          else if String.eqb s "inlet_heat_meter" then INLET_HEAT_METER
          else UNKNOWN)
  | PyList _ => Raise (TypeError "unhashable type: 'list'")
  | PyDict _ => Raise (TypeError "unhashable type: 'dict'")
  | _ => Ok UNKNOWN
  end.

Record ExternalDevice : Type := mkExternalDevice {
  unique_id : pyval;
  meter_type : DeviceType;
  value : pyval;
  unit : pyval;
  timestamp : option datetime
}.

Record Data : Type := mkData {
  wifi_ssid : pyval;
  wifi_strength : pyval;
  smr_version : pyval;
  meter_model : pyval;
  unique_meter_id : pyval;
  active_tariff : pyval;
  total_power_import_kwh : pyval;
  total_power_import_t1_kwh : pyval;
  total_power_import_t2_kwh : pyval;
  total_power_import_t3_kwh : pyval;
  total_power_import_t4_kwh : pyval;
  total_power_export_kwh : pyval;
  total_power_export_t1_kwh : pyval;
  total_power_export_t2_kwh : pyval;
  total_power_export_t3_kwh : pyval;
  total_power_export_t4_kwh : pyval;
  active_power_w : pyval;
  active_power_l1_w : pyval;
  active_power_l2_w : pyval;
  active_power_l3_w : pyval;
  active_voltage_l1_v : pyval;
  active_voltage_l2_v : pyval;
  active_voltage_l3_v : pyval;
  active_current_l1_a : pyval;
  active_current_l2_a : pyval;
  active_current_l3_a : pyval;
  active_frequency_hz : pyval;
  voltage_sag_l1_count : pyval;
  voltage_sag_l2_count : pyval;
  voltage_sag_l3_count : pyval;
  voltage_swell_l1_count : pyval;
  voltage_swell_l2_count : pyval;
  voltage_swell_l3_count : pyval;
  any_power_fail_count : pyval;
  long_power_fail_count : pyval;
  active_power_average_w : pyval;
  montly_power_peak_w : pyval;
  montly_power_peak_timestamp : option datetime;
  total_gas_m3 : pyval;
  gas_timestamp : option datetime;
  gas_unique_id : pyval;
  active_liter_lpm : pyval;
  total_liter_m3 : pyval;
  external_devices : option (list ExternalDevice)
}.

Section WithBuiltins.
Context `{Builtins}.

(** [Data.convert_timestamp_to_datetime] *)
Definition convert_timestamp_to_datetime (timestamp : pyval)
  : result (option datetime) :=
  match timestamp with
  | PyNone => Ok None
  | _ => dt <- strptime (py_str timestamp) ;; Ok (Some dt)
  end.

Definition ExternalDevice_from_dict (data : pyval) : result ExternalDevice :=
  d <- as_dict data ;;
  ty <- DeviceType_from_string (dict_get d "type") ;;
  ts <- convert_timestamp_to_datetime (dict_get d "timestamp") ;;
  Ok (mkExternalDevice (dict_get d "unique_id") ty (dict_get d "value")
                       (dict_get d "unit") ts).

(** The [for] loop over a list, appending to [devices]. *)
Fixpoint external_loop (items : list pyval) : result (list ExternalDevice) :=
  match items with
  | [] => Ok []
  | external :: rest =>
      dev <- ExternalDevice_from_dict external ;;
      devs <- external_loop rest ;;
      Ok (dev :: devs)
  end.

Definition chars_of (s : string) : list pyval :=
  map (fun c => PyStr (String c EmptyString)) (list_ascii_of_string s).

(** [Data.get_external_devices]. Iterating a dict gives its keys, a string
    its characters; a number or a bool is not iterable. *)
Definition get_external_devices (external_devices : pyval)
  : result (option (list ExternalDevice)) :=
  match external_devices with
  | PyNone => Ok None
  | PyList l => devs <- external_loop l ;; Ok (Some devs)
  | PyDict d => devs <- external_loop (map (fun kv => PyStr (fst kv)) d) ;; Ok (Some devs)
  | PyStr s => devs <- external_loop (chars_of s) ;; Ok (Some devs)
  | PyBool _ => Raise (TypeError "'bool' object is not iterable")
  | PyInt _ => Raise (TypeError "'int' object is not iterable")
  | PyFloat _ _ => Raise (TypeError "'float' object is not iterable")
  end.

(** [Data.from_dict]; the keyword arguments are evaluated in the order they
    are written, so the peak timestamp is decoded first, the gas timestamp
    next and the external devices last. *)
Definition Data_from_dict (data : pyval) : result Data :=
  d <- as_dict data ;;
  peak_ts <- convert_timestamp_to_datetime (dict_get d "montly_power_peak_timestamp") ;;
  gas_ts <- convert_timestamp_to_datetime (dict_get d "gas_timestamp") ;;
  ext <- get_external_devices (dict_get d "external") ;;
  Ok (mkData
      (dict_get d "wifi_ssid")
      (dict_get d "wifi_strength")
      (dict_get d "smr_version")
      (dict_get d "meter_model")
      (dict_get d "unique_id")
      (dict_get d "active_tariff")
      (dict_get d "total_power_import_kwh")
      (dict_get d "total_power_import_t1_kwh")
      (dict_get d "total_power_import_t2_kwh")
      (dict_get d "total_power_import_t3_kwh")
      (dict_get d "total_power_import_t4_kwh")
      (dict_get d "total_power_export_kwh")
      (dict_get d "total_power_export_t1_kwh")
      (dict_get d "total_power_export_t2_kwh")
      (dict_get d "total_power_export_t3_kwh")
      (dict_get d "total_power_export_t4_kwh")
      (dict_get d "active_power_w")
      (dict_get d "active_power_l1_w")
      (dict_get d "active_power_l2_w")
      (dict_get d "active_power_l3_w")
      (dict_get d "active_voltage_l1_v")
      (dict_get d "active_voltage_l2_v")
      (dict_get d "active_voltage_l3_v")
      (dict_get d "active_current_l1_a")
      (dict_get d "active_current_l2_a")
      (dict_get d "active_current_l3_a")
      (dict_get d "active_frequency_hz")
      (dict_get d "voltage_sag_l1_count")
      (dict_get d "voltage_sag_l2_count")
      (dict_get d "voltage_sag_l3_count")
      (dict_get d "voltage_swell_l1_count")
      (dict_get d "voltage_swell_l2_count")
      (dict_get d "voltage_swell_l3_count")
      (dict_get d "any_power_fail_count")
      (dict_get d "long_power_fail_count")
      (dict_get d "active_power_average_w")
      (dict_get d "montly_power_peak_w")
      peak_ts
      (dict_get d "total_gas_m3")
      gas_ts
      (dict_get d "gas_unique_id")
      (dict_get d "active_liter_lpm")
      (dict_get d "total_liter_m3")
      ext).

End WithBuiltins.

(** ** State, System, Decryption *)

Record State : Type := mkState {
  power_on : pyval;
  switch_lock : pyval;
  brightness : pyval
}.

Definition State_from_dict (data : pyval) : result State :=
  d <- as_dict data ;;
  Ok (mkState (dict_get d "power_on") (dict_get d "switch_lock")
              (dict_get d "brightness")).

Record System : Type := mkSystem { cloud_enabled : pyval }.

Definition System_from_dict (data : pyval) : result System :=
  d <- as_dict data ;;
  Ok (mkSystem (dict_get d "cloud_enabled")).

Record Decryption : Type := mkDecryption {
  key_set : pyval;
  aad_set : pyval
}.

Definition Decryption_from_dict (data : pyval) : result Decryption :=
  d <- as_dict data ;;
  Ok (mkDecryption (dict_get d "key") (dict_get d "aad")).

End Models.
Export Models.

(* ================================================================== *)
(** * homewizard_energy.py *)

Module Client.

(** ** Collaborators *)

(** The capability flags of a [Features] object ([features.py]). *)
Record Features : Type := mkFeatures {
  has_state : bool;
  has_system : bool;
  has_identify : bool;
  has_decryption : bool
}.

Inductive Method : Type := METH_GET | METH_PUT | METH_DELETE.

(** One call of [session.request(method, url, json=data, headers=headers)]. *)
Record Request : Type := mkRequest {
  req_method : Method;
  req_url : string;
  req_json : pyval;
  req_headers : list (string * string)
}.

(** What the device answered: the status, the [Content-Type] header when
    there is one, the body as text, and what [resp.json()] gives ([None]
    when it raises). *)
Record Response : Type := mkResponse {
  status : Z;
  content_type : option string;
  text : string;
  json : option pyval
}.

(** What happens inside the [async_timeout] block. *)
Inductive Outcome : Type :=
| TimedOut                       (* asyncio.TimeoutError *)
| ClientFault                    (* ClientError, ClientResponseError *)
| Responded (resp : Response).

(** What the client takes from outside this file: the constant of
    [const.py]; the constructor [Features(product_type, firmware_version)]
    of [features.py], which gives the object or raises (it is handed
    whatever the payload held under the two keys, [None] included); and the
    HTTP session, whose answer may depend on the requests sent before. *)
Class Collaborators : Type := {
  SUPPORTED_API_VERSION : string;
  Features_init : pyval -> pyval -> result Features;
  transport : list Request -> Request -> Outcome
}.

(** ** The client object and the world it runs in *)

Inductive Session : Type :=
| SuppliedSession        (* the [clientsession] argument *)
| OwnSession.            (* [ClientSession()] made by [request] *)

Record HomeWizardEnergy : Type := mkClient {
  _host : string;
  _session : option Session;
  _close_session : bool;
  _request_timeout : Z;
  _features : option Features
}.

(** [HomeWizardEnergy(host, clientsession, timeout)] *)
Definition init (host : string) (clientsession : option Session) (timeout : Z)
  : HomeWizardEnergy :=
  mkClient host clientsession false timeout None.

Definition set_features (c : HomeWizardEnergy) (f : Features) : HomeWizardEnergy :=
  mkClient (_host c) (_session c) (_close_session c) (_request_timeout c) (Some f).

Definition own_session (c : HomeWizardEnergy) : HomeWizardEnergy :=
  mkClient (_host c) (Some OwnSession) true (_request_timeout c) (_features c).

(** [wire]: the requests handed to the session so far, oldest first;
    [error_log]: the records of [_LOGGER.error]. *)
Record World : Type := mkWorld {
  self : HomeWizardEnergy;
  wire : list Request;
  error_log : list string
}.

(** A coroutine: it ends with a value or an exception, and with the world as
    it was left at that point. *)
Definition Co (A : Type) : Type := World -> result A * World.

Definition ret {A : Type} (a : A) : Co A := fun w => (Ok a, w).

Definition raise {A : Type} (e : exn) : Co A := fun w => (Raise e, w).

Definition lift {A : Type} (r : result A) : Co A := fun w => (r, w).

Definition co_bind {A B : Type} (c : Co A) (k : A -> Co B) : Co B :=
  fun w =>
    match c w with
    | (Ok a, w') => k a w'
    | (Raise e, w') => (Raise e, w')
    end.

Declare Scope co_scope.
Delimit Scope co_scope with co.
Notation "x <- c ;; k" := (co_bind c (fun x => k))
  (at level 61, c at next level, right associativity) : co_scope.
Notation "c ;;; k" := (co_bind c (fun _ => k))
  (at level 61, right associativity) : co_scope.

Definition store_features (f : Features) : Co Datatypes.unit :=
  fun w => (Ok tt, mkWorld (set_features (self w) f) (wire w) (error_log w)).

Definition log_error (msg : string) : Co Datatypes.unit :=
  fun w => (Ok tt, mkWorld (self w) (wire w) (error_log w ++ [msg])%list).

(** ** Small helpers for Python expressions *)

(** [needle in hay] for strings *)
Fixpoint contains (needle hay : string) : bool :=
  String.prefix needle hay
  || match hay with
     | EmptyString => false
     | String _ rest => contains needle rest
     end.

Definition hexdigits : string := "0123456789abcdefABCDEF".

(** [all(c in string.hexdigits for c in s)] *)
Definition all_hexdigits (s : string) : bool :=
  forallb (fun c => existsb (Ascii.eqb c) (list_ascii_of_string hexdigits))
          (list_ascii_of_string s).

(** [value != text] for a decoded value and a string constant *)
Definition differs_from (value : pyval) (text : string) : bool :=
  match value with
  | PyStr s => negb (String.eqb s text)
  | _ => true
  end.

(** What the attribute lookup [self.features] gives. The class defines the
    coroutine method [features], so the lookup gives that bound method; the
    cached object is the other attribute, [self._features]. *)
Inductive attribute : Type :=
| BoundMethod (name : string)
| Stored (f : option Features).

Definition self_features (c : HomeWizardEnergy) : attribute := BoundMethod "features".

Definition is_None (a : attribute) : bool :=
  match a with
  | Stored None => true
  | _ => false
  end.

(** [features.<name>] on what [features()] returned *)
Definition flag (name : string) (proj : Features -> bool) (f : option Features)
  : result bool :=
  match f with
  | Some x => Ok (proj x)
  | None =>
      Raise (AttributeError ("'NoneType' object has no attribute '" ++ name ++ "'"))
  end.

(** The parts of [request] that do not depend on the answer: the session is
    made when there is none, the URL and the headers are composed, and the
    request goes on the wire. *)
Definition with_session (c : HomeWizardEnergy) : HomeWizardEnergy :=
  match _session c with
  | None => own_session c
  | Some _ => c
  end.

Definition request_of (c : HomeWizardEnergy) (path : string) (method : Method)
           (data : pyval) : Request :=
  mkRequest method ("http://" ++ _host c ++ "/" ++ path) data
            [("Content-Type", "application/json")].

Definition sent (w : World) (req : Request) : World :=
  mkWorld (with_session (self w)) (wire w ++ [req])%list (error_log w).

(** The two exceptions [request] raises for what happens inside the timeout
    block. *)
Definition timeout_error : exn :=
  RequestError "Timeout occurred while connecting to the HomeWizard Energy device"
               FromTimeoutError.

Definition communication_error : exn :=
  RequestError "Error occurred while communicating with the HomeWizard Energy device"
               FromClientError.

Section WithCollaborators.
Context `{Builtins} `{Collaborators}.

Local Open Scope co_scope.

(** ** [request] *)

Definition request (path : string) (method : Method) (data : pyval) : Co pyval :=
  fun w =>
    let req := request_of (self w) path method data in
    let w' := sent w req in
    match transport (wire w) req with
    | TimedOut => (Raise timeout_error, w')
    | ClientFault => (Raise communication_error, w')
    | Responded resp =>
        if status resp =? 403 then
          (Raise (DisabledError
                    "API disabled. API must be enabled in HomeWizard Energy app"), w')
        else if negb (status resp =? 200) then
          (Raise (RequestError
                    ("API request error (" ++ str_of_Z (status resp) ++ ")") NoCause), w')
        else
          let content_type :=
            match content_type resp with Some v => v | None => EmptyString end in
          if contains "application/json" content_type then
            match json resp with
            | Some v => (Ok v, w')
            | None => (Raise JSONDecodeError, w')
            end
          else (Ok (PyStr (text resp)), w')
    end.

(** ** [device] and [features] *)

Definition device : Co Device :=
  response <- request "api" METH_GET PyNone ;;
  device <- lift (Device_from_dict response) ;;
  derived <- lift (Features_init (product_type device) (firmware_version device)) ;;
  store_features derived ;;;
  if differs_from (api_version device) SUPPORTED_API_VERSION then
    raise (UnsupportedError
             ("Unsupported API version, expected version '"
              ++ SUPPORTED_API_VERSION ++ "'"))
  else ret device.

Definition features : Co (option Features) :=
  fun w =>
    let after :=
      if is_None (self_features (self w)) then (device ;;; ret tt) w
      else (Ok tt, w) in
    match after with
    | (Ok _, w') => (Ok (_features (self w')), w')
    | (Raise e, w') => (Raise e, w')
    end.

(** ** The read operations *)

Definition data : Co Data :=
  response <- request "api/v1/data" METH_GET PyNone ;;
  lift (Data_from_dict response).

Definition state : Co (option State) :=
  features <- features ;;
  supported <- lift (flag "has_state" has_state features) ;;
  if negb supported then ret None
  else
    response <- request "api/v1/state" METH_GET PyNone ;;
    st <- lift (State_from_dict response) ;;
    ret (Some st).

Definition system : Co System :=
  response <- request "api/v1/system" METH_GET PyNone ;;
  lift (System_from_dict response).

Definition decryption : Co Decryption :=
  response <- request "api/v1/decryption" METH_GET PyNone ;;
  lift (Decryption_from_dict response).

(** ** The write operations *)

Definition put_if {A : Type} (d : dict) (key : string) (inj : A -> pyval)
           (arg : option A) : dict :=
  match arg with
  | Some a => (d ++ [(key, inj a)])%list
  | None => d
  end.

Definition state_set (power_on switch_lock : option bool) (brightness : option Z)
  : Co bool :=
  let state : dict := [] in
  features <- features ;;
  supported <- lift (flag "has_state" has_state features) ;;
  if negb supported then
    raise (UnsupportedError "Setting state is not supported with this device")
  else
    let state := put_if state "power_on" PyBool power_on in
    let state := put_if state "switch_lock" PyBool switch_lock in
    let state := put_if state "brightness" PyInt brightness in
    match state with
    | [] => log_error "At least one state update is required" ;;; ret false
    | _ :: _ =>
        request "api/v1/state" METH_PUT (PyDict state) ;;; ret true
    end.

Definition system_set (cloud_enabled : option bool) : Co bool :=
  let state : dict := [] in
  features <- features ;;
  supported <- lift (flag "has_system" has_system features) ;;
  if negb supported then
    raise (UnsupportedError "Setting system is not supported with this device")
  else
    let state := put_if state "cloud_enabled" PyBool cloud_enabled in
    match state with
    | [] => log_error "At least one state update is required" ;;; ret false
    | _ :: _ =>
        request "api/v1/system" METH_PUT (PyDict state) ;;; ret true
    end.

Definition identify : Co bool :=
  features <- features ;;
  supported <- lift (flag "has_identify" has_identify features) ;;
  if negb supported then raise (UnsupportedError "Identify is not supported")
  else request "api/v1/identify" METH_PUT PyNone ;;; ret true.

(** The checks of [decryption_set] on [key], then on [aad]; each gives the
    dict with the entry added. *)
Definition check_key (data : dict) (key : option string) : result dict :=
  match key with
  | None => Ok data
  | Some k =>
      if negb (Nat.eqb (String.length k) 32) then
        Raise (ValueError [Some "Key length should be 32 characters long"])
      else if negb (all_hexdigits k) then
        Raise (ValueError
                 [Some "Key should only contain hexadecimal characters (0-9/a-f)"])
      else Ok (data ++ [("key", PyStr k)])%list
  end.

Definition check_aad (data : dict) (aad : option string) : result dict :=
  match aad with
  | None => Ok data
  | Some a =>
      if negb (Nat.eqb (String.length a) 34) then
        let hint : option string :=
          if Nat.eqb (String.length a) 32
          then Some "Hint: Try prefixing AAD with '30', e.g. '30<AAD>'"
          else None in
        Raise (ValueError [Some "AAD length should be 34 characters long"; hint])
      else if negb (all_hexdigits a) then
        Raise (ValueError
                 [Some "AAD should only contain hexadecimal characters (0-9/a-f)"])
      else Ok (data ++ [("aad", PyStr a)])%list
  end.

Definition decryption_set (key aad : option string) : Co bool :=
  let data : dict := [] in
  features <- features ;;
  supported <- lift (flag "has_decryption" has_decryption features) ;;
  if negb supported then
    raise (UnsupportedError "Setting decryption is not supported with this device")
  else
    data <- lift (check_key data key) ;;
    data <- lift (check_aad data aad) ;;
    match data with
    | [] => log_error "At least one decryption key is required" ;;; ret false
    | _ :: _ =>
        request "api/v1/decryption" METH_PUT (PyDict data) ;;; ret true
    end.

Definition decryption_reset (key aad : bool) : Co bool :=
  features <- features ;;
  supported <- lift (flag "has_decryption" has_decryption features) ;;
  if negb supported then
    raise (UnsupportedError "Setting decryption is not supported with this device")
  else
    let data : dict := [("key", PyBool key); ("aad", PyBool aad)] in
    request "api/v1/decryption" METH_DELETE (PyDict data) ;;; ret true.

End WithCollaborators.

End Client.
Export Client.

(* ================================================================== *)
(** * What the specification calls valid, and example collaborators *)

Module Spec.

(** The value two decimal digit characters spell. *)
Definition two (a b : ascii) : Z := 10 * digit_val a + digit_val b.

(** Twelve ASCII digits. *)
Definition twelve_digits (s : string) : bool :=
  Nat.eqb (String.length s) 12 && forallb is_digit (list_ascii_of_string s).

(** A valid [yyMMddHHmmss] string, in the specification's words: twelve
    digits that spell a month, a day of that month, an hour, a minute and a
    second; the two-digit year is read by the POSIX rule (00-68 are 20xx,
    69-99 are 19xx), which decides the length of February. *)
Definition valid_timestamp12 (s : string) : bool :=
  match list_ascii_of_string s with
  | [y1; y2; m1; m2; d1; d2; h1; h2; n1; n2; s1; s2] =>
      forallb is_digit [y1; y2; m1; m2; d1; d2; h1; h2; n1; n2; s1; s2]
      && (let yy := two y1 y2 in
          let y := if yy <=? 68 then 2000 + yy else 1900 + yy in
          (1 <=? two m1 m2) && (two m1 m2 <=? 12)
          && (1 <=? two d1 d2) && (two d1 d2 <=? days_in_month y (two m1 m2))
          && (two h1 h2 <=? 23) && (two n1 n2 <=? 59) && (two s1 s2 <=? 59))
  | _ => false
  end.

(** What [decryption_set] raises for a [key] that fails its checks: one
    message, no hint. *)
Definition key_error (k : string) : exn :=
  ValueError
    [Some (if Nat.eqb (String.length k) 32
           then "Key should only contain hexadecimal characters (0-9/a-f)"
           else "Key length should be 32 characters long")].

(** A [key] argument that passes the checks [decryption_set] makes on it. *)
Definition key_ok (key : option string) : bool :=
  match key with
  | None => true
  | Some k => Nat.eqb (String.length k) 32 && all_hexdigits k
  end.

(** What [decryption_set] raises for an [aad] of the wrong length: the
    message and, as second argument, the hint or [None]. *)
Definition aad_length_error (aad : string) : exn :=
  ValueError
    [Some "AAD length should be 34 characters long";
     if Nat.eqb (String.length aad) 32
     then Some "Hint: Try prefixing AAD with '30', e.g. '30<AAD>'"
     else None].

(** The device answers [req] with status 200 and a JSON body that decodes
    to [v]. *)
Definition delivers `{Collaborators} (w : World) (req : Request) (v : pyval) : Prop :=
  exists resp,
    transport (wire w) req = Responded resp
    /\ status resp = 200
    /\ contains "application/json"
         (match content_type resp with Some t => t | None => EmptyString end) = true
    /\ json resp = Some v.

End Spec.
Export Spec.

Module Fixture.

(** Stand-ins for the examples. No example depends on what this [repr]
    prints. *)
Definition example_builtins : Builtins :=
  {| py_repr := fun v =>
       match v with
       | PyStr s => "'" ++ s ++ "'"
       | _ => "<object>"
       end |}.

Definition socket : Features := mkFeatures true true true false.
Definition p1_meter : Features := mkFeatures false true true true.
Definition no_features : Features := mkFeatures false false false false.

(** A stand-in for the constructor of [features.py]: it knows two product
    types, and it raises [TypeError] when the product type or the firmware
    version is not a string (as for a payload without these keys). *)
Definition example_features (product_type firmware_version : pyval)
  : result Features :=
  match product_type, firmware_version with
  | PyStr t, PyStr _ =>
      Ok (if String.eqb t "HWE-SKT" then socket
          else if String.eqb t "HWE-P1" then p1_meter
          else no_features)
  | _, _ => Raise (TypeError "expected string or bytes-like object")
  end.

(** A device that answers every request with status 200 and the JSON value
    [payload]; the client expects API version ["v1"]. *)
Definition answering (payload : pyval) : Collaborators :=
  {| SUPPORTED_API_VERSION := "v1";
     Features_init := example_features;
     transport := fun _ _ =>
       Responded (mkResponse 200 (Some "application/json") EmptyString (Some payload)) |}.

(** A device that does not answer in time. *)
Definition silent : Collaborators :=
  {| SUPPORTED_API_VERSION := "v1";
     Features_init := example_features;
     transport := fun _ _ => TimedOut |}.

Definition device_payload (version : string) : pyval :=
  PyDict [("product_name", PyStr "Energy Socket");
          ("product_type", PyStr "HWE-SKT");
          ("serial", PyStr "3c39e7aabbcc");
          ("firmware_version", PyStr "3.01");
          ("api_version", PyStr version)].

Definition data_payload : dict :=
  [("wifi_ssid", PyStr "My Wi-Fi");
   ("wifi_strength", PyInt 100);
   ("total_power_import_t1_kwh", PyFloat 1234 (-3));
   ("gas_timestamp", PyInt 210314112233)].

(** A client just constructed, and one whose [_features] is already set. *)
Definition fresh : World := mkWorld (init "192.168.1.20" None 10) [] [].

Definition resolved (f : Features) : World :=
  mkWorld (set_features (init "192.168.1.20" None 10) f) [] [].

End Fixture.

(* ================================================================== *)
(** * The rest of the client: the session's end, and runs of operations *)

Module Lifecycle.

(** The property [host] *)
Definition host (c : HomeWizardEnergy) : string := _host c.

(** [close()]: the session on which [close()] is awaited, if there is one
    ([self._session and self._close_session]); the client object is left as
    it is. [__aexit__] awaits [close()]. *)
Definition close (c : HomeWizardEnergy) : option Session :=
  match _session c with
  | Some s => if _close_session c then Some s else None
  | None => None
  end.

Definition aexit (c : HomeWizardEnergy) : option Session := close c.

(** One awaited call of a public coroutine, with its arguments. *)
Inductive Op : Type :=
| OpDevice
| OpData
| OpState
| OpStateSet (power_on switch_lock : option bool) (brightness : option Z)
| OpSystem
| OpSystemSet (cloud_enabled : option bool)
| OpIdentify
| OpDecryption
| OpDecryptionSet (key aad : option string)
| OpDecryptionReset (key aad : bool).

Section WithAll.
Context `{Builtins} `{Collaborators}.

(** The world after the call, whether it returned or raised. *)
Definition step (w : World) (op : Op) : World :=
  match op with
  | OpDevice => snd (device w)
  | OpData => snd (data w)
  | OpState => snd (state w)
  | OpStateSet p s b => snd (state_set p s b w)
  | OpSystem => snd (system w)
  | OpSystemSet c => snd (system_set c w)
  | OpIdentify => snd (identify w)
  | OpDecryption => snd (decryption w)
  | OpDecryptionSet k a => snd (decryption_set k a w)
  | OpDecryptionReset k a => snd (decryption_reset k a w)
  end.

(** A caller awaiting one call after the other. *)
Definition run (ops : list Op) (w : World) : World := fold_left step ops w.

End WithAll.

(** The method and path of every call of [request] in the client. *)
Definition endpoints : list (Method * string) :=
  [(METH_GET, "api"); (METH_GET, "api/v1/data");
   (METH_GET, "api/v1/state"); (METH_PUT, "api/v1/state");
   (METH_GET, "api/v1/system"); (METH_PUT, "api/v1/system");
   (METH_PUT, "api/v1/identify");
   (METH_GET, "api/v1/decryption"); (METH_PUT, "api/v1/decryption");
   (METH_DELETE, "api/v1/decryption")].

(** The texts of the three calls of [_LOGGER.error]. *)
Definition error_texts : list string :=
  ["At least one state update is required";
   "At least one decryption key is required"].

(** What one call can do to the world: nothing, one error record, one
    request, or (in [device] only, [fetch = true]) one request and new
    features. *)
Inductive effect (w : World) : bool -> World -> Prop :=
| eff_none (fetch : bool) : effect w fetch w
| eff_log (fetch : bool) (msg : string) :
    In msg error_texts ->
    effect w fetch (mkWorld (self w) (wire w) (error_log w ++ [msg]))
| eff_sent (fetch : bool) (m : Method) (p : string) (body : pyval) :
    In (m, p) endpoints ->
    effect w fetch (sent w (request_of (self w) p m body))
| eff_device (f : Features) :
    effect w true
           (mkWorld (set_features (with_session (self w)) f)
                    (wire w ++ [request_of (self w) "api" METH_GET PyNone])
                    (error_log w)).

Definition is_device (op : Op) : bool :=
  match op with
  | OpDevice => true
  | _ => false
  end.

(** A request to one of the endpoints of the device at [h]. *)
Definition to_endpoint (h : string) (r : Request) : Prop :=
  exists m p,
    In (m, p) endpoints
    /\ req_method r = m
    /\ req_url r = "http://" ++ h ++ "/" ++ p
    /\ req_headers r = [("Content-Type", "application/json")].

(** The client's own session since the world [w0]: none and nothing sent
    yet, or made, marked for closing, and something sent. *)
Definition owned_since (w0 w : World) : Prop :=
  (wire w = wire w0 /\ _session (self w) = None /\ _close_session (self w) = false)
  \/ ((List.length (wire w0) < List.length (wire w))%nat
      /\ _session (self w) = Some OwnSession /\ _close_session (self w) = true).

(** The client with another cache. *)
Definition with_features (w : World) (f : option Features) : World :=
  mkWorld (mkClient (_host (self w)) (_session (self w)) (_close_session (self w))
                    (_request_timeout (self w)) f)
          (wire w) (error_log w).

End Lifecycle.
Export Lifecycle.

Module Describe.

(** The entries of a request body: of the arguments listed, those that were
    given, in the order listed. *)
Fixpoint present (args : list (string * option pyval)) : dict :=
  match args with
  | [] => []
  | (key, Some v) :: rest => (key, v) :: present rest
  | (_, None) :: rest => present rest
  end.

(** A character of [0-9], [a-f] or [A-F]. *)
Definition is_hex (c : ascii) : bool :=
  let n := nat_of_ascii c in
  ((48 <=? n) && (n <=? 57) || (97 <=? n) && (n <=? 102)
   || (65 <=? n) && (n <=? 70))%nat.

(** What a write operation makes of the answer to its one request. *)
Definition confirmed (r : result pyval) : result bool :=
  match r with
  | Ok _ => Ok true
  | Raise e => Raise e
  end.

(** An [aad] argument that passes the checks [decryption_set] makes on it. *)
Definition aad_ok (aad : option string) : bool :=
  match aad with
  | None => true
  | Some a => Nat.eqb (String.length a) 34 && all_hexdigits a
  end.

(** The string the literal dict of [from_string] has for a device type. *)
Definition type_text (t : DeviceType) : option string :=
  match t with
  | UNKNOWN => None
  | GAS_METER => Some "gas_meter"
  | HEAT_METER => Some "heat_meter"
  | WARM_WATER_METER => Some "warm_water_meter"
  | WATER_METER => Some "water_meter"
  | INLET_HEAT_METER => Some "inlet_heat_meter"
  end.

(** The keys [Data.from_dict] reads. *)
Definition Data_keys : list string :=
  ["wifi_ssid"; "wifi_strength"; "smr_version"; "meter_model"; "unique_id";
   "active_tariff";
   "total_power_import_kwh"; "total_power_import_t1_kwh";
   "total_power_import_t2_kwh"; "total_power_import_t3_kwh";
   "total_power_import_t4_kwh";
   "total_power_export_kwh"; "total_power_export_t1_kwh";
   "total_power_export_t2_kwh"; "total_power_export_t3_kwh";
   "total_power_export_t4_kwh";
   "active_power_w"; "active_power_l1_w"; "active_power_l2_w";
   "active_power_l3_w";
   "active_voltage_l1_v"; "active_voltage_l2_v"; "active_voltage_l3_v";
   "active_current_l1_a"; "active_current_l2_a"; "active_current_l3_a";
   "active_frequency_hz";
   "voltage_sag_l1_count"; "voltage_sag_l2_count"; "voltage_sag_l3_count";
   "voltage_swell_l1_count"; "voltage_swell_l2_count"; "voltage_swell_l3_count";
   "any_power_fail_count"; "long_power_fail_count";
   "active_power_average_w"; "montly_power_peak_w";
   "montly_power_peak_timestamp";
   "total_gas_m3"; "gas_timestamp"; "gas_unique_id";
   "active_liter_lpm"; "total_liter_m3"; "external"].

(** A date and time of the calendar, in the years a two-digit year can
    stand for. *)
Definition in_calendar (dt : datetime) : Prop :=
  1969 <= year dt <= 2068
  /\ 1 <= month dt <= 12
  /\ 1 <= day dt <= days_in_month (year dt) (month dt)
  /\ 0 <= hour dt <= 23
  /\ 0 <= minute dt <= 59
  /\ 0 <= second dt <= 59.

End Describe.
Export Describe.

Module MoreFixtures.

(** A device that answers every request with status 200 and a plain-text
    body. *)
Definition answering_text (body : string) : Collaborators :=
  {| SUPPORTED_API_VERSION := "v1";
     Features_init := Fixture.example_features;
     transport := fun _ _ =>
       Responded (mkResponse 200 (Some "text/plain") body None) |}.

(** A device that answers every request with the given status. *)
Definition answering_status (code : Z) : Collaborators :=
  {| SUPPORTED_API_VERSION := "v1";
     Features_init := Fixture.example_features;
     transport := fun _ _ =>
       Responded (mkResponse code (Some "application/json") EmptyString
                             (Some (PyDict []))) |}.

(** A client made with a session of the caller's. *)
Definition with_supplied_session : World :=
  mkWorld (init "192.168.1.20" (Some SuppliedSession) 10) [] [].

Definition external_payload : pyval :=
  PyList [PyDict [("unique_id", PyStr "G001"); ("type", PyStr "gas_meter");
                  ("value", PyFloat 1234 (-3)); ("unit", PyStr "m3");
                  ("timestamp", PyInt 230125220957)];
          PyDict [("unique_id", PyStr "W001"); ("type", PyStr "sewer");
                  ("value", PyInt 7); ("unit", PyStr "m3")]].

End MoreFixtures.

Module Ranges.

(** The 256 characters. *)
Definition all_ascii : list ascii := map ascii_of_nat (seq 0 256).

(** The texts an alternative matches as a whole. *)
Fixpoint texts (a : alt) : list (list ascii) :=
  match a with
  | [] => [[]]
  | k :: a' =>
      flat_map (fun c => map (cons c) (texts a')) (filter (cls_match k) all_ascii)
  end.

(** The value of a group's text lies between [lo] and [hi]. *)
Definition within (lo hi : Z) (tok : list ascii) : bool :=
  (lo <=? py_int tok) && (py_int tok <=? hi).

(** Every text that spells an alternative of [D] has its value between
    [lo] and [hi]. *)
Definition bounded (D : directive) (lo hi : Z) : bool :=
  forallb (within lo hi) (flat_map texts D).

End Ranges.
Export Ranges.

Module Numbers.

(** The integer a decimal text denotes, as [json.loads] reads a number. *)
Definition number_of (s : string) : option Z :=
  option_map Z.of_int (NilZero.int_of_string s).

(** The text starts with one of the digits 1 to 9. *)
Definition starts_nonzero (s : string) : bool :=
  match s with
  | String c _ => is_digit c && negb (Ascii.eqb c "0")
  | EmptyString => false
  end.

End Numbers.
Export Numbers.

(* ================================================================== *)
(** * The timestamp decoder *)

Module TimestampFacts.

Lemma digit_inv (c : ascii) :
  is_digit c = true ->
  In c ["0"; "1"; "2"; "3"; "4"; "5"; "6"; "7"; "8"; "9"]%char.
Proof.
  destruct c as [[] [] [] [] [] [] [] []]; cbv; intro Hc;
    try discriminate Hc; tauto.
Qed.

(** Replace a character known to be a digit by each of the ten digits. *)
Ltac digit_cases H :=
  apply digit_inv in H; simpl in H;
  repeat (destruct H as [H | H]; [subst | ]); [.. | contradiction].

(** Take the twelve digit facts out of [forallb is_digit [...]]. *)
Ltac split_andb H :=
  repeat match type of H with
         | (_ && _)%bool = true =>
             let H1 := fresh "D" in
             apply andb_prop in H as [H1 H]
         end.

Lemma py_int_two (a b : ascii) :
  is_digit a = true -> is_digit b = true -> py_int [a; b] = two a b.
Proof.
  intros Ha Hb. digit_cases Ha; digit_cases Hb; reflexivity.
Qed.

Lemma two_digits_two (a b : ascii) :
  is_digit a = true -> is_digit b = true ->
  two_digits (two a b) = String a (String b EmptyString).
Proof.
  intros Ha Hb. digit_cases Ha; digit_cases Hb; reflexivity.
Qed.

Lemma two_digits_year (a b : ascii) :
  is_digit a = true -> is_digit b = true ->
  two_digits ((if two a b <=? 68 then two a b + 2000 else two a b + 1900) mod 100)
  = String a (String b EmptyString).
Proof.
  intros Ha Hb. digit_cases Ha; digit_cases Hb; reflexivity.
Qed.

Lemma days_in_month_le_31 (y m : Z) : days_in_month y m <= 31.
Proof.
  unfold days_in_month.
  destruct (m =? 2); [destruct (is_leap y); lia | ].
  destruct ((m =? 4) || (m =? 6) || (m =? 9) || (m =? 11)); lia.
Qed.

(** ** Two digits in range are taken by the two-character alternative *)

Section Forward.
Context {R : Type} (k : list ascii -> list ascii -> option R).

Ltac forward Ha Hb Hr Hk :=
  digit_cases Ha; digit_cases Hb;
  first [ discriminate Hr | cbv - [k]; cbv in Hk; rewrite Hk; reflexivity ].

Lemma take_y a b rest r :
  is_digit a = true -> is_digit b = true ->
  k [a; b] rest = Some r -> try_alts re_y (a :: b :: rest) k = Some r.
Proof.
  intros Ha Hb Hk. pose proof (eq_refl true) as Hr. forward Ha Hb Hr Hk.
Qed.

Lemma take_m a b rest r :
  is_digit a = true -> is_digit b = true ->
  (1 <=? two a b) && (two a b <=? 12) = true ->
  k [a; b] rest = Some r -> try_alts re_m (a :: b :: rest) k = Some r.
Proof.
  intros Ha Hb Hr Hk. forward Ha Hb Hr Hk.
Qed.

Lemma take_d a b rest r :
  is_digit a = true -> is_digit b = true ->
  (1 <=? two a b) && (two a b <=? 31) = true ->
  k [a; b] rest = Some r -> try_alts re_d (a :: b :: rest) k = Some r.
Proof.
  intros Ha Hb Hr Hk. forward Ha Hb Hr Hk.
Qed.

Lemma take_H a b rest r :
  is_digit a = true -> is_digit b = true ->
  (two a b <=? 23) = true ->
  k [a; b] rest = Some r -> try_alts re_H (a :: b :: rest) k = Some r.
Proof.
  intros Ha Hb Hr Hk. forward Ha Hb Hr Hk.
Qed.

Lemma take_M a b rest r :
  is_digit a = true -> is_digit b = true ->
  (two a b <=? 59) = true ->
  k [a; b] rest = Some r -> try_alts re_M (a :: b :: rest) k = Some r.
Proof.
  intros Ha Hb Hr Hk. forward Ha Hb Hr Hk.
Qed.

Lemma take_S a b rest r :
  is_digit a = true -> is_digit b = true ->
  (two a b <=? 59) = true ->
  k [a; b] rest = Some r -> try_alts re_S (a :: b :: rest) k = Some r.
Proof.
  intros Ha Hb Hr Hk. forward Ha Hb Hr Hk.
Qed.

End Forward.

(** The fields of a valid string. *)
Lemma valid_fields y1 y2 m1 m2 d1 d2 h1 h2 n1 n2 s1 s2 :
  valid_timestamp12
    (string_of_list_ascii [y1; y2; m1; m2; d1; d2; h1; h2; n1; n2; s1; s2]) = true ->
  forallb is_digit [y1; y2; m1; m2; d1; d2; h1; h2; n1; n2; s1; s2] = true
  /\ 1 <= two m1 m2 <= 12
  /\ 1 <= two d1 d2
       <= days_in_month
            (if two y1 y2 <=? 68 then two y1 y2 + 2000 else two y1 y2 + 1900)
            (two m1 m2)
  /\ two h1 h2 <= 23 /\ two n1 n2 <= 59 /\ two s1 s2 <= 59.
Proof.
  unfold valid_timestamp12. rewrite list_ascii_of_string_of_list_ascii.
  intro Hv. apply andb_prop in Hv as [Hdig Hv]. cbv zeta in Hv.
  apply andb_prop in Hv as [Hv Hs]. apply andb_prop in Hv as [Hv Hn].
  apply andb_prop in Hv as [Hv Hh]. apply andb_prop in Hv as [Hv Hd2].
  apply andb_prop in Hv as [Hv Hd1]. apply andb_prop in Hv as [Hm1 Hm2].
  replace (2000 + two y1 y2) with (two y1 y2 + 2000) in Hd2 by lia.
  replace (1900 + two y1 y2) with (two y1 y2 + 1900) in Hd2 by lia.
  apply Z.leb_le in Hs, Hn, Hh, Hd2, Hd1, Hm1, Hm2.
  repeat split; assumption.
Qed.

Lemma valid_format_match y1 y2 m1 m2 d1 d2 h1 h2 n1 n2 s1 s2 :
  valid_timestamp12
    (string_of_list_ascii [y1; y2; m1; m2; d1; d2; h1; h2; n1; n2; s1; s2]) = true ->
  format_match [y1; y2; m1; m2; d1; d2; h1; h2; n1; n2; s1; s2]
  = Some (mkGroups [y1; y2] [m1; m2] [d1; d2] [h1; h2] [n1; n2] [s1; s2], []).
Proof.
  intro Hv.
  destruct (valid_fields _ _ _ _ _ _ _ _ _ _ _ _ Hv)
    as (Hdig & Hm & Hd & Hh & Hn & Hs).
  cbn [forallb] in Hdig. split_andb Hdig.
  pose proof (days_in_month_le_31
                (if two y1 y2 <=? 68 then two y1 y2 + 2000 else two y1 y2 + 1900)
                (two m1 m2)) as H31.
  unfold format_match.
  apply take_y; trivial.
  apply take_m; trivial.
  { apply andb_true_intro; split; apply Z.leb_le; lia. }
  apply take_d; trivial.
  { apply andb_true_intro; split; apply Z.leb_le; lia. }
  apply take_H; trivial. { apply Z.leb_le; lia. }
  apply take_M; trivial. { apply Z.leb_le; lia. }
  apply take_S; trivial. apply Z.leb_le; lia.
Qed.

(** A string of twelve characters, spelled out. *)
Lemma twelve_chars (s : string) :
  String.length s = 12%nat ->
  exists y1 y2 m1 m2 d1 d2 h1 h2 n1 n2 s1 s2,
    s = string_of_list_ascii [y1; y2; m1; m2; d1; d2; h1; h2; n1; n2; s1; s2].
Proof.
  intro Hlen.
  do 12 (destruct s as [| ? s]; [discriminate Hlen | ]).
  destruct s; [ | discriminate Hlen].
  do 12 eexists. reflexivity.
Qed.

Lemma valid_length (s : string) :
  valid_timestamp12 s = true -> String.length s = 12%nat.
Proof.
  unfold valid_timestamp12. intro Hv.
  rewrite <- (string_of_list_ascii_of_string s).
  destruct (list_ascii_of_string s) as [| ? l]; [discriminate Hv | ].
  do 11 (destruct l as [| ? l]; [discriminate Hv | ]).
  destruct l; [reflexivity | discriminate Hv].
Qed.

(** [strptime] on a valid string: the datetime its fields spell. *)
Lemma strptime_valid `{Builtins} y1 y2 m1 m2 d1 d2 h1 h2 n1 n2 s1 s2 :
  valid_timestamp12
    (string_of_list_ascii [y1; y2; m1; m2; d1; d2; h1; h2; n1; n2; s1; s2]) = true ->
  strptime (string_of_list_ascii [y1; y2; m1; m2; d1; d2; h1; h2; n1; n2; s1; s2])
  = Ok (mkDatetime
          (if two y1 y2 <=? 68 then two y1 y2 + 2000 else two y1 y2 + 1900)
          (two m1 m2) (two d1 d2) (two h1 h2) (two n1 n2) (two s1 s2)).
Proof.
  intro Hv.
  pose proof (valid_format_match _ _ _ _ _ _ _ _ _ _ _ _ Hv) as Hm.
  destruct (valid_fields _ _ _ _ _ _ _ _ _ _ _ _ Hv)
    as (Hdig & _ & Hd & _ & _ & Hs).
  cbn [forallb] in Hdig. split_andb Hdig.
  unfold strptime. rewrite list_ascii_of_string_of_list_ascii, Hm.
  cbn [g_y g_m g_d g_H g_M g_S].
  rewrite !py_int_two by assumption.
  destruct (Z.ltb_spec (days_in_month
              (if two y1 y2 <=? 68 then two y1 y2 + 2000 else two y1 y2 + 1900)
              (two m1 m2)) (two d1 d2)) as [Hlt | _]; [lia | ].
  destruct (Z.ltb_spec 59 (two s1 s2)) as [Hlt | _]; [lia | ].
  reflexivity.
Qed.

(** ** What a successful match says about the text *)

Lemma try_alts_sound {R : Type} (D : directive) (s : list ascii)
      (k : list ascii -> list ascii -> option R) (r : R) :
  try_alts D s k = Some r ->
  exists a tok rest,
    In a D /\ match_alt a s = Some (tok, rest) /\ k tok rest = Some r.
Proof.
  induction D as [| a D IH]; simpl; [discriminate | ].
  destruct (match_alt a s) as [[tok rest] | ] eqn:Ha.
  - destruct (k tok rest) as [r' | ] eqn:Hk.
    + intros [= ->]. exists a, tok, rest. auto.
    + intro H. destruct (IH H) as (a' & tok' & rest' & Hin & Hm & Hk').
      exists a', tok', rest'. auto.
  - intro H. destruct (IH H) as (a' & tok' & rest' & Hin & Hm & Hk').
    exists a', tok', rest'. auto.
Qed.

Lemma match_alt_split (a : alt) :
  forall s tok rest,
    match_alt a s = Some (tok, rest) ->
    s = (tok ++ rest)%list /\ List.length tok = List.length a
    /\ match_alt a tok = Some (tok, []).
Proof.
  induction a as [| c a IH]; simpl; intros s tok rest H.
  - injection H as <- <-. auto.
  - destruct s as [| x s]; [discriminate | ].
    destruct (cls_match c x) eqn:Hc; [ | discriminate].
    destruct (match_alt a s) as [[tok' rest'] | ] eqn:Hm; [ | discriminate].
    injection H as <- <-.
    destruct (IH _ _ _ Hm) as (-> & Hlen & Hex).
    simpl. rewrite Hc, Hex, Hlen. auto.
Qed.

Lemma short_res :
  short re_y /\ short re_m /\ short re_d /\ short re_H /\ short re_M /\ short re_S.
Proof. unfold short. repeat split; repeat constructor. Qed.

(** One step of the pattern: a group of at most two characters that spells
    an alternative, and the continuation on what follows. *)
Lemma step_sound {R : Type} (D : directive) (s : list ascii)
      (k : list ascii -> list ascii -> option R) (r : R) :
  short D ->
  try_alts D s k = Some r ->
  exists tok rest,
    s = (tok ++ rest)%list /\ (List.length tok <= 2)%nat /\ spells D tok = true
    /\ k tok rest = Some r.
Proof.
  intros Hshort H.
  destruct (try_alts_sound _ _ _ _ H) as (a & tok & rest & Hin & Hm & Hk).
  destruct (match_alt_split _ _ _ _ Hm) as (Hs & Hlen & Hex).
  exists tok, rest. repeat split; trivial.
  - rewrite Hlen. unfold short in Hshort. rewrite Forall_forall in Hshort. auto.
  - unfold spells. apply existsb_exists. exists a. split; [exact Hin | ].
    now rewrite Hex.
Qed.

(** Six groups of at most two characters that use up twelve characters take
    two each. *)
Lemma format_match_twelve y1 y2 m1 m2 d1 d2 h1 h2 n1 n2 s1 s2 g :
  format_match [y1; y2; m1; m2; d1; d2; h1; h2; n1; n2; s1; s2] = Some (g, []) ->
  g = mkGroups [y1; y2] [m1; m2] [d1; d2] [h1; h2] [n1; n2] [s1; s2]
  /\ spells re_m [m1; m2] = true /\ spells re_d [d1; d2] = true
  /\ spells re_H [h1; h2] = true /\ spells re_M [n1; n2] = true.
Proof.
  destruct short_res as (Sy & Sm & Sd & SH & SM & SS).
  unfold format_match. intro H.
  apply (step_sound _ _ _ _ Sy) in H as (ty & r1 & E1 & L1 & _ & H).
  apply (step_sound _ _ _ _ Sm) in H as (tm & r2 & E2 & L2 & Pm & H).
  apply (step_sound _ _ _ _ Sd) in H as (td & r3 & E3 & L3 & Pd & H).
  apply (step_sound _ _ _ _ SH) in H as (tH & r4 & E4 & L4 & PH & H).
  apply (step_sound _ _ _ _ SM) in H as (tM & r5 & E5 & L5 & PM & H).
  apply (step_sound _ _ _ _ SS) in H as (tS & r6 & E6 & L6 & _ & H).
  injection H as <- ->. subst r5 r4 r3 r2 r1.
  assert (Hlen : (List.length ty + List.length tm + List.length td
                  + List.length tH + List.length tM + List.length tS = 12)%nat).
  { apply (f_equal (@List.length ascii)) in E1.
    rewrite !length_app in E1. simpl in E1. lia. }
  assert (List.length ty = 2 /\ List.length tm = 2 /\ List.length td = 2
          /\ List.length tH = 2 /\ List.length tM = 2
          /\ List.length tS = 2)%nat as (Ky & Km & Kd & KH & KM & KS) by lia.
  clear - E1 Ky Km Kd KH KM KS Pm Pd PH PM.
  destruct ty as [| ? [| ? [| ? ?]]]; try discriminate Ky.
  destruct tm as [| ? [| ? [| ? ?]]]; try discriminate Km.
  destruct td as [| ? [| ? [| ? ?]]]; try discriminate Kd.
  destruct tH as [| ? [| ? [| ? ?]]]; try discriminate KH.
  destruct tM as [| ? [| ? [| ? ?]]]; try discriminate KM.
  destruct tS as [| ? [| ? [| ? ?]]]; try discriminate KS.
  simpl in E1. injection E1 as -> -> -> -> -> -> -> -> -> -> -> ->.
  auto.
Qed.

Ltac spelled Ha Hb Hs :=
  digit_cases Ha; digit_cases Hb; first [discriminate Hs | reflexivity].

Lemma spells_m a b :
  is_digit a = true -> is_digit b = true -> spells re_m [a; b] = true ->
  (1 <=? two a b) && (two a b <=? 12) = true.
Proof. intros Ha Hb Hs. spelled Ha Hb Hs. Qed.

Lemma spells_d a b :
  is_digit a = true -> is_digit b = true -> spells re_d [a; b] = true ->
  (1 <=? two a b) = true.
Proof. intros Ha Hb Hs. spelled Ha Hb Hs. Qed.

Lemma spells_H a b :
  is_digit a = true -> is_digit b = true -> spells re_H [a; b] = true ->
  (two a b <=? 23) = true.
Proof. intros Ha Hb Hs. spelled Ha Hb Hs. Qed.

Lemma spells_M a b :
  is_digit a = true -> is_digit b = true -> spells re_M [a; b] = true ->
  (two a b <=? 59) = true.
Proof. intros Ha Hb Hs. spelled Ha Hb Hs. Qed.

(** [strptime] gives a datetime or raises [ValueError], nothing else. *)
Lemma strptime_cases `{Builtins} (s : string) :
  (exists dt, strptime s = Ok dt)
  \/ (exists args, strptime s = Raise (ValueError args)).
Proof.
  unfold strptime.
  destruct (format_match (list_ascii_of_string s)) as [[g [| c rest]] | ].
  - destruct (_ <? _); [right; eauto | ].
    destruct (_ <? _); [right; eauto | left; eauto].
  - right; eauto.
  - right; eauto.
Qed.

(** Twelve digits that [strptime] accepts are a valid timestamp. *)
Lemma strptime_twelve_digits_valid `{Builtins} (s : string) (dt : datetime) :
  twelve_digits s = true -> strptime s = Ok dt -> valid_timestamp12 s = true.
Proof.
  unfold twelve_digits. intros Htd Hok.
  apply andb_prop in Htd as [Hlen Hdig]. apply Nat.eqb_eq in Hlen.
  destruct (twelve_chars s Hlen)
    as (y1 & y2 & m1 & m2 & d1 & d2 & h1 & h2 & n1 & n2 & s1 & s2 & ->).
  unfold valid_timestamp12.
  unfold strptime in Hok.
  rewrite list_ascii_of_string_of_list_ascii in *.
  rewrite Hdig. cbn [andb].
  cbn [forallb] in Hdig. split_andb Hdig.
  destruct (format_match _) as [[g [| c rest]] | ] eqn:Hm; try discriminate Hok.
  apply format_match_twelve in Hm as (-> & Pm & Pd & PH & PM).
  cbn [g_y g_m g_d g_H g_M g_S] in Hok.
  rewrite !py_int_two in Hok by assumption.
  destruct (Z.ltb_spec (days_in_month
              (if two y1 y2 <=? 68 then two y1 y2 + 2000 else two y1 y2 + 1900)
              (two m1 m2)) (two d1 d2)) as [ | Hday]; [discriminate Hok | ].
  destruct (Z.ltb_spec 59 (two s1 s2)) as [ | Hsec]; [discriminate Hok | ].
  cbv zeta.
  replace (2000 + two y1 y2) with (two y1 y2 + 2000) by lia.
  replace (1900 + two y1 y2) with (two y1 y2 + 1900) by lia.
  rewrite spells_m, spells_d, spells_H, spells_M by assumption.
  apply Z.leb_le in Hday. apply Z.leb_le in Hsec. rewrite Hday, Hsec.
  reflexivity.
Qed.

(** The pattern is not anchored to twelve digits: a text of seven digits is
    read with one-digit fields, and a day may be a space and a digit. *)
Example strptime_lenient `{Builtins} :
  strptime "2111111" = Ok (mkDatetime 2021 1 1 1 1 1)
  /\ strptime "2101 1000000" = Ok (mkDatetime 2021 1 1 0 0 0).
Proof. split; reflexivity. Qed.

Lemma convert_of_value `{Builtins} (v : pyval) :
  v <> PyNone ->
  convert_timestamp_to_datetime v
  = bind (strptime (py_str v)) (fun dt => Ok (Some dt)).
Proof.
  intro Hv. destruct v; try reflexivity. now elim Hv.
Qed.

End TimestampFacts.
Import TimestampFacts.

(* ================================================================== *)
(** * Claims about models.py *)

Import Fixture.

(** C2 (as amended): an absent ([None]) source value decodes to an absent
    timestamp, and it is the only value that does. Every other value gives a
    decoded timestamp or makes the decoder raise [ValueError]; in particular
    a string of twelve digits that is not a valid [yyMMddHHmmss] timestamp
    raises [ValueError]. *)
Theorem C2_absent_only_for_absent_else_value_or_ValueError :
  forall (B : Builtins) (v : pyval),
    (convert_timestamp_to_datetime v = Ok None <-> v = PyNone)
    /\ ((exists r, convert_timestamp_to_datetime v = Ok r)
        \/ (exists args, convert_timestamp_to_datetime v = Raise (ValueError args)))
    /\ (forall s, v = PyStr s -> twelve_digits s = true ->
                  valid_timestamp12 s = false ->
                  exists args,
                    convert_timestamp_to_datetime v = Raise (ValueError args)).
Proof.
  intros B v.
  assert (Hdec : v = PyNone \/ v <> PyNone)
    by (destruct v; (left; reflexivity) || (right; discriminate)).
  destruct Hdec as [-> | Hv].
  - repeat split; try reflexivity.
    + left. eexists. reflexivity.
    + intros s [=].
  - rewrite (convert_of_value v Hv).
    destruct (strptime_cases (py_str v)) as [[dt Hok] | [args Herr]].
    + rewrite Hok. cbn [bind]. repeat split; try (intros [=]); try contradiction.
      * left. eexists. reflexivity.
      * intros s -> Htd Hinv. cbn [py_str] in Hok.
        rewrite (strptime_twelve_digits_valid s dt Htd Hok) in Hinv.
        discriminate Hinv.
    + rewrite Herr. cbn [bind]. repeat split; try (intros [=]); try contradiction.
      * right. eexists. reflexivity.
      * intros. eexists. reflexivity.
Qed.

(** The amended C2 at month 13. *)
Lemma C2_witness :
  twelve_digits "211301000000" = true
  /\ valid_timestamp12 "211301000000" = false
  /\ exists args,
       @convert_timestamp_to_datetime example_builtins (PyStr "211301000000")
       = Raise (ValueError args).
Proof.
  split; [reflexivity | split; [reflexivity | ]].
  apply (proj2 (proj2 (C2_absent_only_for_absent_else_value_or_ValueError
                         example_builtins (PyStr "211301000000")))
           "211301000000");
    reflexivity.
Defined.

(** C2 as stated fails: malformed source values do not decode to an absent
    timestamp, the decoder raises [ValueError] on them (month 13, the 30th
    of February, a text with separators). *)
Lemma C2_malformed_raises_ValueError :
  valid_timestamp12 "211301000000" = false
  /\ (forall B : Builtins,
        @convert_timestamp_to_datetime B (PyStr "211301000000")
        = Raise (ValueError [Some "unconverted data remains: 0"]))
  /\ (forall B : Builtins,
        @convert_timestamp_to_datetime B (PyStr "210230120000")
        = Raise (ValueError [Some "day is out of range for month"]))
  /\ (forall B : Builtins,
        @convert_timestamp_to_datetime B (PyStr "21-03-14 11:") <> Ok None).
Proof.
  repeat split; intro B; try reflexivity. discriminate.
Qed.

(** C3: for every valid 12-digit [yyMMddHHmmss] string [s], decoding [s] and
    formatting the decoded timestamp with the same pattern gives [s] back. *)
Theorem C3_decode_then_format_roundtrip :
  forall (B : Builtins) (s : string),
    valid_timestamp12 s = true ->
    exists dt : datetime,
      convert_timestamp_to_datetime (PyStr s) = Ok (Some dt)
      /\ strftime dt = s.
Proof.
  intros B s Hv.
  destruct (twelve_chars s (valid_length s Hv))
    as (y1 & y2 & m1 & m2 & d1 & d2 & h1 & h2 & n1 & n2 & s1 & s2 & ->).
  unfold convert_timestamp_to_datetime, py_str.
  rewrite (strptime_valid _ _ _ _ _ _ _ _ _ _ _ _ Hv). cbn [bind].
  eexists. split; [reflexivity | ].
  destruct (valid_fields _ _ _ _ _ _ _ _ _ _ _ _ Hv) as (Hdig & _).
  cbn [forallb] in Hdig. split_andb Hdig.
  unfold strftime. cbn [year month day hour minute second].
  rewrite two_digits_year by assumption.
  rewrite !two_digits_two by assumption.
  reflexivity.
Qed.

(** C3 at 14 March 2021, 11:22:33. *)
Lemma C3_witness :
  valid_timestamp12 "210314112233" = true
  /\ exists dt,
       @convert_timestamp_to_datetime example_builtins (PyStr "210314112233")
       = Ok (Some dt)
       /\ strftime dt = "210314112233".
Proof.
  split; [reflexivity | ].
  apply (C3_decode_then_format_roundtrip example_builtins "210314112233").
  reflexivity.
Defined.

Lemma dict_get_missing (d : dict) (key : string) :
  dict_has d key = false -> dict_get d key = PyNone.
Proof.
  induction d as [| [k v] d IH]; simpl; [reflexivity | ].
  destruct (String.eqb k key); [discriminate | exact IH].
Qed.

(** C4 (as amended): for every metered-data payload without the key
    ["external"], a [Data] that [Data.from_dict] returns has
    [external_devices] absent ([None]); and it does return one whenever the
    two timestamp entries decode. *)
Theorem C4_missing_external_gives_None :
  forall (B : Builtins) (d : dict),
    dict_has d "external" = false ->
    (forall r, Data_from_dict (PyDict d) = Ok r -> external_devices r = None)
    /\ (forall p g,
          convert_timestamp_to_datetime (dict_get d "montly_power_peak_timestamp")
          = Ok p ->
          convert_timestamp_to_datetime (dict_get d "gas_timestamp") = Ok g ->
          exists r,
            Data_from_dict (PyDict d) = Ok r
            /\ external_devices r = None
            /\ montly_power_peak_timestamp r = p
            /\ gas_timestamp r = g).
Proof.
  intros B d Hmiss. apply dict_get_missing in Hmiss.
  unfold Data_from_dict. simpl as_dict. cbn [bind]. rewrite Hmiss.
  split.
  - intro r.
    destruct (convert_timestamp_to_datetime (dict_get d "montly_power_peak_timestamp"));
      [ | discriminate].
    destruct (convert_timestamp_to_datetime (dict_get d "gas_timestamp"));
      [ | discriminate].
    cbn. intros [= <-]. reflexivity.
  - intros p g -> ->. cbn. eexists. repeat split.
Qed.

(** The amended C4 on a payload of a meter without external devices. *)
Lemma C4_witness :
  dict_has data_payload "external" = false
  /\ exists r,
       @Data_from_dict example_builtins (PyDict data_payload) = Ok r
       /\ external_devices r = None
       /\ montly_power_peak_timestamp r = None
       /\ gas_timestamp r = Some (mkDatetime 2021 3 14 11 22 33).
Proof.
  split; [reflexivity | ].
  apply (proj2 (C4_missing_external_gives_None
                  example_builtins data_payload eq_refl));
    reflexivity.
Defined.

(** C4 as stated fails: without the key ["external"] the decoded field is
    [None], not the empty list. *)
Lemma C4_missing_external_is_not_empty_list :
  dict_has data_payload "external" = false
  /\ exists r,
       @Data_from_dict example_builtins (PyDict data_payload) = Ok r
       /\ external_devices r = None
       /\ external_devices r <> Some [].
Proof.
  split; [reflexivity | ].
  eexists. split; [reflexivity | ]. split; [reflexivity | discriminate].
Qed.

(* ================================================================== *)
(** * Claims about the client *)

Section ClientFacts.
Context `{Collaborators}.

(** [features()] awaits nothing and hands out [self._features] as it is. *)
Lemma features_returns_cache (w : World) :
  features w = (Ok (_features (self w)), w).
Proof. reflexivity. Qed.

Lemma request_delivers (path : string) (method : Method) (data : pyval)
      (w : World) (v : pyval) :
  delivers w (request_of (self w) path method data) v ->
  request path method data w
  = (Ok v, sent w (request_of (self w) path method data)).
Proof.
  intros (resp & Ht & Hs & Hc & Hj). unfold request. rewrite Ht, Hs.
  simpl. rewrite Hc, Hj. reflexivity.
Qed.

(** [device()] on a JSON object: the features are made and stored, then
    the version decides between the exception and the [Device]; when the
    constructor raises, nothing is stored. *)
Lemma device_delivers (w : World) (d : dict) :
  delivers w (request_of (self w) "api" METH_GET PyNone) (PyDict d) ->
  device w
  = match Features_init (dict_get d "product_type")
                        (dict_get d "firmware_version") with
    | Ok f =>
        (if differs_from (dict_get d "api_version") SUPPORTED_API_VERSION
         then Raise (UnsupportedError
                       ("Unsupported API version, expected version '"
                        ++ SUPPORTED_API_VERSION ++ "'"))
         else Ok (mkDevice (dict_get d "product_name") (dict_get d "product_type")
                           (dict_get d "serial") (dict_get d "api_version")
                           (dict_get d "firmware_version")),
         mkWorld (set_features (with_session (self w)) f)
                 (wire w ++ [request_of (self w) "api" METH_GET PyNone])
                 (error_log w))
    | Raise e => (Raise e, sent w (request_of (self w) "api" METH_GET PyNone))
    end.
Proof.
  intro Hd. unfold device, co_bind. rewrite (request_delivers _ _ _ _ _ Hd).
  cbn. destruct (Features_init _ _); [ | reflexivity].
  cbn. destruct (differs_from _ _); reflexivity.
Qed.

Lemma sent_features (w : World) (req : Request) :
  _features (self (sent w req)) = _features (self w).
Proof.
  unfold sent, with_session, own_session. cbn.
  now destruct (_session (self w)).
Qed.

(** An answer of the device never comes out of [request] as one of the two
    exceptions of the timeout block. *)
Lemma responded_is_neither (path : string) (method : Method) (data : pyval)
      (w : World) (resp : Response) :
  transport (wire w) (request_of (self w) path method data) = Responded resp ->
  fst (request path method data w) <> Raise timeout_error
  /\ fst (request path method data w) <> Raise communication_error.
Proof.
  intro Ht. unfold request. rewrite Ht.
  destruct (status resp =? 403); [split; discriminate | ].
  destruct (negb (status resp =? 200)); [split; discriminate | ].
  destruct (contains _ _); [ | split; discriminate].
  destruct (json resp); split; discriminate.
Qed.

Lemma check_key_ok (key : option string) :
  key_ok key = true -> exists data, check_key [] key = Ok data.
Proof.
  destruct key as [k | ]; simpl; [ | eauto].
  intro Hk. apply andb_prop in Hk as [-> ->]. simpl. eauto.
Qed.

Lemma check_aad_length (data : dict) (aad : string) :
  String.length aad <> 34%nat ->
  check_aad data (Some aad) = Raise (aad_length_error aad).
Proof.
  intro Hlen. unfold check_aad.
  destruct (Nat.eqb_spec (String.length aad) 34) as [| _]; [contradiction | ].
  reflexivity.
Qed.

End ClientFacts.

Lemma answering_delivers (payload : pyval) (w : World) (req : Request) :
  @delivers (answering payload) w req payload.
Proof.
  eexists. repeat split.
Qed.

(** C1 (the code does otherwise): on a client whose [_features] is still
    unset, [features()] fetches nothing and returns [None], and each of the
    six operations that consult the capability set stops at the capability
    check with [AttributeError], the world untouched: no request was sent,
    and [_features] is still unset. *)
Theorem C1_capability_check_runs_on_unresolved_features :
  forall (C : Collaborators) host session close timeout sent_before logged,
    let w := mkWorld (mkClient host session close timeout None) sent_before logged in
    features w = (Ok None, w)
    /\ state w
       = (Raise (AttributeError "'NoneType' object has no attribute 'has_state'"), w)
    /\ (forall power_on switch_lock brightness,
          state_set power_on switch_lock brightness w
          = (Raise (AttributeError "'NoneType' object has no attribute 'has_state'"), w))
    /\ (forall cloud_enabled,
          system_set cloud_enabled w
          = (Raise (AttributeError "'NoneType' object has no attribute 'has_system'"), w))
    /\ identify w
       = (Raise (AttributeError "'NoneType' object has no attribute 'has_identify'"), w)
    /\ (forall key aad,
          decryption_set key aad w
          = (Raise (AttributeError "'NoneType' object has no attribute 'has_decryption'"), w))
    /\ (forall key aad,
          decryption_reset key aad w
          = (Raise (AttributeError "'NoneType' object has no attribute 'has_decryption'"), w)).
Proof.
  intros. repeat split.
Qed.

(** C5 (as amended): [state_set()] with the three arguments absent, on a
    client whose features have the state capability, logs the error "At
    least one state update is required" and returns [False], a normal
    result; no request is sent. *)
Theorem C5_no_fields_logs_and_returns_False :
  forall (C : Collaborators) (w : World) (f : Features),
    _features (self w) = Some f ->
    has_state f = true ->
    state_set None None None w
    = (Ok false,
       mkWorld (self w) (wire w)
               (error_log w ++ ["At least one state update is required"])).
Proof.
  intros C w f Hf Hs.
  unfold state_set, co_bind. rewrite features_returns_cache, Hf.
  cbn. rewrite Hs. reflexivity.
Qed.

(** The amended C5 on an energy socket. *)
Lemma C5_witness :
  @state_set silent None None None (resolved socket)
  = (Ok false,
     mkWorld (self (resolved socket)) []
             ["At least one state update is required"]).
Proof.
  apply (C5_no_fields_logs_and_returns_False silent (resolved socket) socket);
    reflexivity.
Defined.

(** C5 as stated fails: the call does not end in an error, it returns the
    boolean [False]. *)
Lemma C5_no_fields_is_a_normal_return :
  has_state socket = true
  /\ fst (@state_set silent None None None (resolved socket)) = Ok false
  /\ forall e : exn,
       fst (@state_set silent None None None (resolved socket)) <> Raise e.
Proof.
  repeat split. intros e. discriminate.
Qed.

Lemma check_key_fails (data : dict) (k : string) :
  key_ok (Some k) = false -> check_key data (Some k) = Raise (key_error k).
Proof.
  unfold key_ok, check_key, key_error.
  destruct (Nat.eqb (String.length k) 32); cbn [negb andb]; [ | reflexivity].
  now intros ->.
Qed.

(** C6 (as amended): on a client whose features are resolved,
    [decryption_set] with an [aad] whose length is not 34 fails and leaves
    the world as it was (no request is sent). Without the decryption
    capability the failure is [UnsupportedError]; with the capability and a
    [key] that fails its own checks it is the [ValueError] about the key,
    which has one argument and no hint; with the capability and [key] absent
    or passing its checks it is
    [ValueError("AAD length should be 34 characters long", hint)], with the
    hint about the prefix '30' exactly when [aad] has 32 characters. *)
Theorem C6_wrong_aad_length_fails_before_the_network :
  forall (C : Collaborators) (w : World) (f : Features)
         (key : option string) (aad : string),
    _features (self w) = Some f ->
    String.length aad <> 34%nat ->
    (exists e, decryption_set key (Some aad) w = (Raise e, w))
    /\ (has_decryption f = false ->
        decryption_set key (Some aad) w
        = (Raise (UnsupportedError
                    "Setting decryption is not supported with this device"), w))
    /\ (has_decryption f = true ->
        forall k, key = Some k -> key_ok key = false ->
                  decryption_set key (Some aad) w = (Raise (key_error k), w))
    /\ (has_decryption f = true -> key_ok key = true ->
        decryption_set key (Some aad) w = (Raise (aad_length_error aad), w)).
Proof.
  intros C w f key aad Hf Hlen.
  unfold decryption_set, co_bind. rewrite features_returns_cache, Hf.
  cbn [flag lift].
  destruct (has_decryption f) eqn:Hd; cbn [negb].
  - destruct (key_ok key) eqn:Hk.
    + destruct (check_key_ok key Hk) as [data Hck]. rewrite Hck.
      rewrite (check_aad_length data aad Hlen).
      repeat split; eauto; try discriminate.
    + destruct key as [k | ]; [ | discriminate Hk].
      rewrite (check_key_fails [] k Hk).
      repeat split; eauto; try discriminate.
      intros _ k' [= <-] _. reflexivity.
  - unfold raise. repeat split; eauto; discriminate.
Qed.

(** The amended C6 on a P1 meter, with an [aad] of 32 characters. *)
Lemma C6_witness :
  String.length "01234567890123456789012345678901" = 32%nat
  /\ @decryption_set silent None (Some "01234567890123456789012345678901")
       (resolved p1_meter)
     = (Raise (ValueError
                 [Some "AAD length should be 34 characters long";
                  Some "Hint: Try prefixing AAD with '30', e.g. '30<AAD>'"]),
        resolved p1_meter).
Proof.
  split; [reflexivity | ].
  apply (proj2 (proj2 (proj2 (C6_wrong_aad_length_fails_before_the_network
                  silent (resolved p1_meter) p1_meter None
                  "01234567890123456789012345678901"
                  eq_refl ltac:(discriminate)))));
    reflexivity.
Defined.

(** C6 as stated fails: with an [aad] of 32 characters the error is the one
    about the key, without a hint, when [key] is too short; and it is
    [UnsupportedError] on a device without the decryption capability. *)
Lemma C6_other_errors_without_hint :
  String.length "01234567890123456789012345678901" = 32%nat
  /\ has_decryption p1_meter = true
  /\ @decryption_set silent (Some "abc") (Some "01234567890123456789012345678901")
       (resolved p1_meter)
     = (Raise (ValueError [Some "Key length should be 32 characters long"]),
        resolved p1_meter)
  /\ @decryption_set silent None (Some "01234567890123456789012345678901")
       (resolved socket)
     = (Raise (UnsupportedError
                 "Setting decryption is not supported with this device"),
        resolved socket).
Proof.
  repeat split.
Qed.

(** C7: [request] raises the timeout failure exactly when the call ran into
    the deadline, and the communication failure exactly when the session
    reported a client error; the two are different exceptions (both are
    [RequestError], they differ in message and in the exception they were
    raised from), so the caller can tell a timeout from a transport
    fault. *)
Theorem C7_timeout_told_apart_from_transport_fault :
  forall (C : Collaborators) (path : string) (method : Method) (data : pyval)
         (w : World),
    (fst (request path method data w) = Raise timeout_error
     <-> transport (wire w) (request_of (self w) path method data) = TimedOut)
    /\ (fst (request path method data w) = Raise communication_error
        <-> transport (wire w) (request_of (self w) path method data) = ClientFault)
    /\ timeout_error <> communication_error.
Proof.
  intros C path method data w.
  destruct (transport (wire w) (request_of (self w) path method data))
    as [ | | resp] eqn:Ht.
  - unfold request. rewrite Ht. cbn [fst].
    repeat split; intro Hr; first [reflexivity | discriminate Hr].
  - unfold request. rewrite Ht. cbn [fst].
    repeat split; intro Hr; first [reflexivity | discriminate Hr].
  - destruct (responded_is_neither path method data w resp Ht) as [Hno1 Hno2].
    repeat split; intro Hr;
      first [discriminate Hr | contradiction].
Qed.

(** C8 (as amended): when [device()] gets a well-formed payload whose
    [api_version] is not the supported one, and the [Features] object can be
    made from its product type and firmware version, it raises
    [UnsupportedError] with a message that names the expected version,
    whatever version the device reported; when the constructor raises, its
    exception comes out instead, before the version is looked at. *)
Theorem C8_version_mismatch_names_only_the_expected_version :
  forall (C : Collaborators) (w : World) (d : dict),
    delivers w (request_of (self w) "api" METH_GET PyNone) (PyDict d) ->
    differs_from (dict_get d "api_version") SUPPORTED_API_VERSION = true ->
    (forall f,
       Features_init (dict_get d "product_type") (dict_get d "firmware_version")
       = Ok f ->
       fst (device w)
       = Raise (UnsupportedError
                  ("Unsupported API version, expected version '"
                   ++ SUPPORTED_API_VERSION ++ "'")))
    /\ (forall e,
          Features_init (dict_get d "product_type") (dict_get d "firmware_version")
          = Raise e ->
          fst (device w) = Raise e).
Proof.
  intros C w d Hd Hv. rewrite (device_delivers w d Hd).
  split; [intros f -> | intros e ->]; [ | reflexivity].
  rewrite Hv. reflexivity.
Qed.

(** The amended C8 on a device reporting ["v2"] to a client expecting
    ["v1"]. *)
Lemma C8_witness :
  fst (@device (answering (device_payload "v2")) fresh)
  = Raise (UnsupportedError "Unsupported API version, expected version 'v1'").
Proof.
  apply (proj1 (C8_version_mismatch_names_only_the_expected_version
                  (answering (device_payload "v2")) fresh
                  [("product_name", PyStr "Energy Socket");
                   ("product_type", PyStr "HWE-SKT");
                   ("serial", PyStr "3c39e7aabbcc");
                   ("firmware_version", PyStr "3.01");
                   ("api_version", PyStr "v2")]
                  (answering_delivers _ _ _) eq_refl)
           socket).
  reflexivity.
Defined.

(** C8 as stated fails: devices reporting ["v2"] and ["v3"] make the client
    raise one and the same exception, so the exception does not carry the
    version the device reported. *)
Lemma C8_error_does_not_carry_actual_version :
  fst (@device (answering (device_payload "v2")) fresh)
  = Raise (UnsupportedError "Unsupported API version, expected version 'v1'")
  /\ fst (@device (answering (device_payload "v3")) fresh)
     = Raise (UnsupportedError "Unsupported API version, expected version 'v1'")
  /\ device_payload "v2" <> device_payload "v3".
Proof.
  repeat split. discriminate.
Qed.

(** C9: [state()] on a client whose resolved features lack the state
    capability returns [None], not an exception, and leaves the world as it
    was: no request is sent. *)
Theorem C9_state_not_applicable_without_capability :
  forall (C : Collaborators) (w : World) (f : Features),
    _features (self w) = Some f ->
    has_state f = false ->
    state w = (Ok None, w).
Proof.
  intros C w f Hf Hs.
  unfold state, co_bind. rewrite features_returns_cache, Hf.
  cbn. rewrite Hs. reflexivity.
Qed.

(** C9 on a P1 meter. *)
Lemma C9_witness :
  @state silent (resolved p1_meter) = (Ok None, resolved p1_meter).
Proof.
  apply (C9_state_not_applicable_without_capability
           silent (resolved p1_meter) p1_meter);
    reflexivity.
Defined.

(** C10 (as amended): whenever [device()] decodes a Device payload and the
    [Features] object can be made from its [product_type] and
    [firmware_version], the client's [_features] afterwards are that object,
    also when the call ends in the unsupported-API-version error: the
    exception leaves the new features in place. When the constructor
    raises, its exception comes out of [device()] and [_features] are what
    they were. *)
Theorem C10_features_stored_before_version_check :
  forall (C : Collaborators) (w : World) (d : dict),
    delivers w (request_of (self w) "api" METH_GET PyNone) (PyDict d) ->
    (forall derived,
       Features_init (dict_get d "product_type") (dict_get d "firmware_version")
       = Ok derived ->
       _features (self (snd (device w))) = Some derived
       /\ (differs_from (dict_get d "api_version") SUPPORTED_API_VERSION = true ->
           device w
           = (Raise (UnsupportedError
                       ("Unsupported API version, expected version '"
                        ++ SUPPORTED_API_VERSION ++ "'")),
              mkWorld (set_features (with_session (self w)) derived)
                      (wire w ++ [request_of (self w) "api" METH_GET PyNone])
                      (error_log w))))
    /\ (forall e,
          Features_init (dict_get d "product_type") (dict_get d "firmware_version")
          = Raise e ->
          fst (device w) = Raise e
          /\ _features (self (snd (device w))) = _features (self w)).
Proof.
  intros C w d Hd. rewrite (device_delivers w d Hd).
  split; [intros derived -> | intros e ->].
  - split; [reflexivity | ]. intros ->. reflexivity.
  - split; [reflexivity | ]. apply sent_features.
Qed.

(** The amended C10 on a client that had the features of a P1 meter and is
    answered by an energy socket reporting ["v2"]. *)
Lemma C10_witness :
  _features (self (snd (@device (answering (device_payload "v2"))
                          (resolved p1_meter))))
  = Some socket
  /\ fst (@device (answering (device_payload "v2")) (resolved p1_meter))
     = Raise (UnsupportedError "Unsupported API version, expected version 'v1'").
Proof.
  destruct (proj1 (C10_features_stored_before_version_check
                     (answering (device_payload "v2")) (resolved p1_meter)
                     [("product_name", PyStr "Energy Socket");
                      ("product_type", PyStr "HWE-SKT");
                      ("serial", PyStr "3c39e7aabbcc");
                      ("firmware_version", PyStr "3.01");
                      ("api_version", PyStr "v2")]
                     (answering_delivers _ _ _))
              socket eq_refl) as [Hcache Hfail].
  split; [exact Hcache | ].
  rewrite (Hfail eq_refl). reflexivity.
Defined.

(** C10 as stated fails: the payload [{}] decodes to a [Device] (every field
    [None]), but no [Features] object can be made from it; [device()]
    raises [TypeError] and the client keeps the features it had, those of a
    P1 meter. *)
Lemma C10_undecodable_features_leave_the_cache :
  Device_from_dict (PyDict [])
  = Ok (mkDevice PyNone PyNone PyNone PyNone PyNone)
  /\ (exists msg,
        fst (@device (answering (PyDict [])) (resolved p1_meter))
        = Raise (TypeError msg))
  /\ _features (self (snd (@device (answering (PyDict [])) (resolved p1_meter))))
     = Some p1_meter.
Proof.
  split; [reflexivity | ]. split; [eexists; reflexivity | reflexivity].
Qed.

(* ================================================================== *)
(** * More about the client *)

Import MoreFixtures.

Section RequestFacts.
Context `{Collaborators}.

(** Whatever the answer, [request] leaves the world with the one request
    sent. *)
Lemma request_world (path : string) (method : Method) (data : pyval) (w : World) :
  snd (request path method data w)
  = sent w (request_of (self w) path method data).
Proof.
  unfold request.
  destruct (transport _ _) as [ | | resp]; try reflexivity.
  destruct (status resp =? 403); [reflexivity | ].
  destruct (negb (status resp =? 200)); [reflexivity | ].
  destruct (contains _ _); [ | reflexivity].
  destruct (json resp); reflexivity.
Qed.

Lemma request_cases (path : string) (method : Method) (data : pyval) (w : World) :
  exists r, request path method data w
            = (r, sent w (request_of (self w) path method data)).
Proof.
  exists (fst (request path method data w)).
  rewrite <- request_world. now destruct (request path method data w).
Qed.

End RequestFacts.

Ltac unpack :=
  repeat match goal with
         | H : exists _, _ |- _ => destruct H
         | H : _ /\ _ |- _ => destruct H
         | H : Responded _ = Responded _ |- _ => injection H as H; subst
         end.

(** X1: every call of [request] hands exactly one request to the session, whatever
    the answer (a timeout and an error status included): the URL is
    [http://<host>/<path>], the body is the [data] argument and the header is
    the JSON content type. The host, the timeout, the cached features and
    the error log are left as they were. *)
Theorem X1_request_sends_exactly_one_request :
  forall (C : Collaborators) (path : string) (method : Method) (data : pyval)
         (w : World),
    let w' := snd (request path method data w) in
    wire w'
    = (wire w ++ [mkRequest method ("http://" ++ _host (self w) ++ "/" ++ path)
                            data [("Content-Type", "application/json")]])%list
    /\ _host (self w') = _host (self w)
    /\ _request_timeout (self w') = _request_timeout (self w)
    /\ _features (self w') = _features (self w)
    /\ error_log w' = error_log w.
Proof.
  intros C path method data w w'. subst w'. rewrite request_world.
  unfold sent, with_session, own_session. cbn.
  destruct (_session (self w)); repeat split.
Qed.

(** X2: [request] raises [DisabledError] exactly when the device answered with
    status 403, and a [RequestError] without a cause exactly when it
    answered with another status than 200 and 403, the message then holding
    that status; it returns a value only on status 200. *)
Theorem X2_status_classification :
  forall (C : Collaborators) (path : string) (method : Method) (data : pyval)
         (w : World),
    let req := request_of (self w) path method data in
    ((exists msg, fst (request path method data w) = Raise (DisabledError msg))
     <-> (exists resp, transport (wire w) req = Responded resp
                       /\ status resp = 403))
    /\ (forall msg, fst (request path method data w) = Raise (RequestError msg NoCause)
        <-> (exists resp, transport (wire w) req = Responded resp
                          /\ status resp <> 403 /\ status resp <> 200
                          /\ msg = "API request error (" ++ str_of_Z (status resp) ++ ")"))
    /\ (forall v, fst (request path method data w) = Ok v ->
                  exists resp, transport (wire w) req = Responded resp
                               /\ status resp = 200).
Proof.
  intros C path method data w req. unfold request. fold req.
  destruct (transport (wire w) req) as [ | | resp].
  - repeat split; intros; unpack; discriminate.
  - repeat split; intros; unpack; discriminate.
  - destruct (Z.eqb_spec (status resp) 403) as [E403 | N403].
    + repeat split; cbn [fst]; intros; unpack;
        first [discriminate | congruence | eauto].
    + destruct (Z.eqb_spec (status resp) 200) as [E200 | N200]; cbn [negb].
      * destruct (contains _ _); [destruct (json resp) | ];
          repeat split; cbn [fst]; intros; unpack;
          first [discriminate | congruence | eauto].
      * repeat split; cbn [fst]; intros; unpack;
          first [discriminate | congruence | idtac].
        match goal with Hm : Raise _ = Raise _ |- _ => injection Hm as <- end.
        exists resp. auto.
Qed.

Lemma differs_from_false (v : pyval) (t : string) :
  differs_from v t = false -> v = PyStr t.
Proof.
  destruct v; simpl; try discriminate.
  intro Hd. apply negb_false_iff, String.eqb_eq in Hd. now subst.
Qed.

(** X3: a [Device] that [device()] returns has the supported API version, and
    from then on the client's cached features are the ones derived from its
    product type and firmware version; one request was sent. *)
Theorem X3_device_returns_only_supported_version :
  forall (C : Collaborators) (w w' : World) (dev : Device),
    device w = (Ok dev, w') ->
    api_version dev = PyStr SUPPORTED_API_VERSION
    /\ (exists f,
          Features_init (product_type dev) (firmware_version dev) = Ok f
          /\ _features (self w') = Some f)
    /\ wire w' = (wire w ++ [request_of (self w) "api" METH_GET PyNone])%list.
Proof.
  intros C w w' dev. unfold device, co_bind.
  destruct (request_cases "api" METH_GET PyNone w) as [r ->].
  destruct r as [v | e]; [ | discriminate].
  destruct v; try discriminate. cbn.
  destruct (Features_init _ _) as [f | e] eqn:Hf; [ | discriminate]. cbn.
  destruct (differs_from _ _) eqn:Hd; [discriminate | ].
  intros [= <- <-]. cbn.
  split; [now apply differs_from_false | ]. split; [eauto | reflexivity].
Qed.

Lemma X3_witness :
  api_version (mkDevice (PyStr "Energy Socket") (PyStr "HWE-SKT")
                        (PyStr "3c39e7aabbcc") (PyStr "v1") (PyStr "3.01"))
  = PyStr "v1"
  /\ _features (self (snd (@device (answering (device_payload "v1")) fresh)))
     = Some socket.
Proof.
  destruct (X3_device_returns_only_supported_version
              (answering (device_payload "v1")) fresh
              (snd (@device (answering (device_payload "v1")) fresh))
              (mkDevice (PyStr "Energy Socket") (PyStr "HWE-SKT")
                        (PyStr "3c39e7aabbcc") (PyStr "v1") (PyStr "3.01"))
              eq_refl) as (Hv & (f & Hinit & Hf) & _).
  split; [exact Hv | ].
  rewrite Hf. f_equal. cbn in Hinit. now injection Hinit.
Defined.

(** X4: when [device()] fails with anything but the unsupported-version error (a
    timeout, a transport fault, an error status, a body that is not a JSON
    object), the cached features are what they were before the call. *)
Theorem X4_failed_fetch_keeps_the_cache :
  forall (C : Collaborators) (w w' : World) (e : exn),
    device w = (Raise e, w') ->
    (forall msg, e <> UnsupportedError msg) ->
    _features (self w') = _features (self w)
    /\ wire w' = (wire w ++ [request_of (self w) "api" METH_GET PyNone])%list.
Proof.
  intros C w w' e. unfold device, co_bind.
  destruct (request_cases "api" METH_GET PyNone w) as [r ->].
  assert (Hsent : _features (self (sent w (request_of (self w) "api" METH_GET PyNone)))
                  = _features (self w)).
  { unfold sent, with_session, own_session. cbn.
    now destruct (_session (self w)). }
  destruct r as [v | e0].
  - destruct v; cbn; try (intros [= <- <-] _; split; [exact Hsent | reflexivity]).
    destruct (Features_init _ _) as [f | e1]; cbn;
      [ | intros [= <- <-] _; split; [exact Hsent | reflexivity]].
    destruct (differs_from _ _); [ | discriminate].
    intros [= <- <-] Hne. now elim (Hne _ eq_refl).
  - intros [= <- <-] _. split; [exact Hsent | reflexivity].
Qed.

Lemma X4_witness :
  _features (self (snd (@device silent (resolved p1_meter)))) = Some p1_meter.
Proof.
  apply (X4_failed_fetch_keeps_the_cache silent (resolved p1_meter)
           (snd (@device silent (resolved p1_meter))) timeout_error eq_refl).
  discriminate.
Defined.

Section TextAnswers.
Context `{Builtins} `{Collaborators}.

Lemma request_text (path : string) (method : Method) (data : pyval)
      (w : World) (resp : Response) :
  transport (wire w) (request_of (self w) path method data) = Responded resp ->
  status resp = 200 ->
  contains "application/json"
    (match content_type resp with Some t => t | None => EmptyString end) = false ->
  request path method data w
  = (Ok (PyStr (text resp)), sent w (request_of (self w) path method data)).
Proof.
  intros Ht Hs Hc. unfold request. rewrite Ht, Hs. simpl. now rewrite Hc.
Qed.

End TextAnswers.

(** X5: when the device answers with status 200 and a content type that is not
    JSON, [request] returns the body as a string, and [device], [data],
    [system] and [decryption] raise [AttributeError] on it; [device] leaves
    the cached features as they were. *)
Theorem X5_text_answer_breaks_the_readers :
  forall (B : Builtins) (C : Collaborators) (w : World) (resp : Response),
    (forall path, transport (wire w) (request_of (self w) path METH_GET PyNone)
                  = Responded resp) ->
    status resp = 200 ->
    contains "application/json"
      (match content_type resp with Some t => t | None => EmptyString end) = false ->
    let failure := AttributeError "'str' object has no attribute 'get'" in
    fst (device w) = Raise failure
    /\ fst (data w) = Raise failure
    /\ fst (system w) = Raise failure
    /\ fst (decryption w) = Raise failure
    /\ _features (self (snd (device w))) = _features (self w).
Proof.
  intros B C w resp Ht Hs Hc failure.
  unfold device, data, system, decryption, co_bind.
  rewrite !(request_text _ _ _ _ resp (Ht _) Hs Hc). cbn.
  repeat split. unfold with_session, own_session.
  now destruct (_session (self w)).
Qed.

Lemma X5_witness :
  fst (@data example_builtins (answering_text "Not Found") fresh)
  = Raise (AttributeError "'str' object has no attribute 'get'").
Proof.
  apply (X5_text_answer_breaks_the_readers example_builtins
           (answering_text "Not Found") fresh
           (mkResponse 200 (Some "text/plain") "Not Found" None));
    reflexivity.
Defined.

(** X6: on a client whose cached features lack the capability, [state_set],
    [system_set], [identify], [decryption_set] and [decryption_reset] raise
    [UnsupportedError] whatever their arguments, and the world is as before:
    no request is sent. *)
Theorem X6_missing_capability_refuses_before_the_network :
  forall (C : Collaborators) (w : World) (f : Features),
    _features (self w) = Some f ->
    (has_state f = false ->
     forall power_on switch_lock brightness,
       state_set power_on switch_lock brightness w
       = (Raise (UnsupportedError "Setting state is not supported with this device"), w))
    /\ (has_system f = false ->
        forall cloud_enabled,
          system_set cloud_enabled w
          = (Raise (UnsupportedError "Setting system is not supported with this device"), w))
    /\ (has_identify f = false ->
        identify w = (Raise (UnsupportedError "Identify is not supported"), w))
    /\ (has_decryption f = false ->
        forall key aad,
          decryption_set key aad w
          = (Raise (UnsupportedError
                      "Setting decryption is not supported with this device"), w))
    /\ (has_decryption f = false ->
        forall key aad,
          decryption_reset key aad w
          = (Raise (UnsupportedError
                      "Setting decryption is not supported with this device"), w)).
Proof.
  intros C w f Hf.
  unfold state_set, system_set, identify, decryption_set, decryption_reset, co_bind.
  rewrite !features_returns_cache, Hf. cbn.
  repeat split; intros ->; reflexivity.
Qed.

Lemma X6_witness :
  @state_set silent (Some true) None None (resolved p1_meter)
  = (Raise (UnsupportedError "Setting state is not supported with this device"),
     resolved p1_meter).
Proof.
  apply (proj1 (X6_missing_capability_refuses_before_the_network
                  silent (resolved p1_meter) p1_meter eq_refl)).
  reflexivity.
Defined.

Section Writes.
Context `{Collaborators}.

Lemma send_and_confirm (path : string) (method : Method) (body : pyval) (w : World) :
  co_bind (request path method body) (fun _ => ret true) w
  = (confirmed (fst (request path method body w)),
     sent w (request_of (self w) path method body)).
Proof.
  unfold co_bind. destruct (request_cases path method body w) as [r ->].
  now destruct r.
Qed.

End Writes.

(** X7: [state_set] with at least one argument given, on a client with the state
    capability, sends one PUT to [api/v1/state] whose body holds exactly the
    arguments given, in the order power_on, switch_lock, brightness; it
    returns [True] when [request] returns and raises what [request]
    raises. *)
Theorem X7_state_set_sends_the_given_fields :
  forall (C : Collaborators) (w : World) (f : Features)
         (power_on switch_lock : option bool) (brightness : option Z),
    _features (self w) = Some f ->
    has_state f = true ->
    (power_on, switch_lock, brightness) <> (None, None, None) ->
    let body :=
      PyDict (present [("power_on", option_map PyBool power_on);
                       ("switch_lock", option_map PyBool switch_lock);
                       ("brightness", option_map PyInt brightness)]) in
    state_set power_on switch_lock brightness w
    = (confirmed (fst (request "api/v1/state" METH_PUT body w)),
       sent w (request_of (self w) "api/v1/state" METH_PUT body)).
Proof.
  intros C w f po sl br Hf Hs Hgiven body. subst body.
  unfold state_set. unfold co_bind at 1 2. rewrite features_returns_cache, Hf.
  cbn [flag lift]. rewrite Hs. cbn [negb].
  destruct po as [p | ], sl as [s | ], br as [b | ]; cbn [put_if app present option_map];
    try apply send_and_confirm.
  now elim Hgiven.
Qed.

Lemma X7_witness :
  @state_set (answering (PyDict [])) (Some true) None (Some 128) (resolved socket)
  = (Ok true,
     mkWorld (own_session (self (resolved socket)))
       [mkRequest METH_PUT "http://192.168.1.20/api/v1/state"
                  (PyDict [("power_on", PyBool true); ("brightness", PyInt 128)])
                  [("Content-Type", "application/json")]]
       []).
Proof.
  apply (X7_state_set_sends_the_given_fields
           (answering (PyDict [])) (resolved socket) socket
           (Some true) None (Some 128));
    [reflexivity | reflexivity | discriminate].
Defined.

(** X8: [system_set] without its argument and [decryption_set] without key and
    aad, on a client with the capability, log an error and return [False];
    no request is sent. *)
Theorem X8_no_fields_in_system_and_decryption :
  forall (C : Collaborators) (w : World) (f : Features),
    _features (self w) = Some f ->
    (has_system f = true ->
     system_set None w
     = (Ok false,
        mkWorld (self w) (wire w)
                (error_log w ++ ["At least one state update is required"])))
    /\ (has_decryption f = true ->
        decryption_set None None w
        = (Ok false,
           mkWorld (self w) (wire w)
                   (error_log w ++ ["At least one decryption key is required"]))).
Proof.
  intros C w f Hf.
  unfold system_set, decryption_set, co_bind.
  rewrite !features_returns_cache, Hf. cbn.
  split; intros ->; reflexivity.
Qed.

Lemma X8_witness :
  @decryption_set silent None None (resolved p1_meter)
  = (Ok false,
     mkWorld (self (resolved p1_meter)) []
             ["At least one decryption key is required"]).
Proof.
  apply (proj2 (X8_no_fields_in_system_and_decryption
                  silent (resolved p1_meter) p1_meter eq_refl)).
  reflexivity.
Defined.

Lemma check_key_present (data : dict) (k : string) :
  key_ok (Some k) = true ->
  check_key data (Some k) = Ok (data ++ [("key", PyStr k)])%list.
Proof.
  simpl. intro Hk. apply andb_prop in Hk as [Hl Hh].
  unfold check_key. now rewrite Hl, Hh.
Qed.

Lemma check_aad_present (data : dict) (a : string) :
  aad_ok (Some a) = true ->
  check_aad data (Some a) = Ok (data ++ [("aad", PyStr a)])%list.
Proof.
  simpl. intro Ha. apply andb_prop in Ha as [Hl Hh].
  unfold check_aad. now rewrite Hl, Hh.
Qed.

(** X9: [decryption_set] with a key of 32 and an aad of 34 hexadecimal
    characters (either may be absent, not both), on a client with the
    decryption capability, sends one PUT to [api/v1/decryption] whose body
    holds the given strings unchanged. *)
Theorem X9_decryption_set_forwards_verbatim :
  forall (C : Collaborators) (w : World) (f : Features) (key aad : option string),
    _features (self w) = Some f ->
    has_decryption f = true ->
    key_ok key = true ->
    aad_ok aad = true ->
    (key, aad) <> (None, None) ->
    let body :=
      PyDict (present [("key", option_map PyStr key);
                       ("aad", option_map PyStr aad)]) in
    decryption_set key aad w
    = (confirmed (fst (request "api/v1/decryption" METH_PUT body w)),
       sent w (request_of (self w) "api/v1/decryption" METH_PUT body)).
Proof.
  intros C w f key aad Hf Hd Hk Ha Hgiven body. subst body.
  unfold decryption_set. unfold co_bind at 1 2. rewrite features_returns_cache, Hf.
  cbn [flag lift]. rewrite Hd. cbn [negb].
  unfold lift.
  destruct key as [k | ], aad as [a | ].
  - unfold co_bind at 1. rewrite (check_key_present _ k Hk). cbv beta iota.
    unfold co_bind at 1. rewrite (check_aad_present _ a Ha). cbv beta iota.
    apply send_and_confirm.
  - unfold co_bind at 1. rewrite (check_key_present _ k Hk). cbv beta iota.
    unfold co_bind at 1. cbn [check_aad]. apply send_and_confirm.
  - unfold co_bind at 1. cbn [check_key].
    unfold co_bind at 1. rewrite (check_aad_present _ a Ha). cbv beta iota.
    apply send_and_confirm.
  - now elim Hgiven.
Qed.

Lemma X9_witness :
  wire (snd (@decryption_set (answering (PyDict [])) None
               (Some "3000112233445566778899AABBCCDDEEFF") (resolved p1_meter)))
  = [mkRequest METH_PUT "http://192.168.1.20/api/v1/decryption"
               (PyDict [("aad", PyStr "3000112233445566778899AABBCCDDEEFF")])
               [("Content-Type", "application/json")]].
Proof.
  rewrite (X9_decryption_set_forwards_verbatim
             (answering (PyDict [])) (resolved p1_meter) p1_meter None
             (Some "3000112233445566778899AABBCCDDEEFF")
             eq_refl eq_refl eq_refl eq_refl ltac:(discriminate)).
  reflexivity.
Defined.

Lemma check_key_cases (data : dict) (key : option string) :
  (key_ok key = true /\ exists data', check_key data key = Ok data')
  \/ (key_ok key = false /\ exists msg, check_key data key = Raise (ValueError [Some msg])).
Proof.
  destruct key as [k | ]; simpl; [ | left; eauto].
  destruct (Nat.eqb (String.length k) 32); simpl; [ | right; eauto].
  destruct (all_hexdigits k); simpl; [left | right]; eauto.
Qed.

Lemma check_aad_cases (data : dict) (aad : option string) :
  (aad_ok aad = true /\ exists data', check_aad data aad = Ok data')
  \/ (aad_ok aad = false /\ exists args, check_aad data aad = Raise (ValueError args)).
Proof.
  destruct aad as [a | ]; simpl; [ | left; eauto].
  destruct (Nat.eqb (String.length a) 34); simpl; [ | right; eauto].
  destruct (all_hexdigits a); simpl; [left | right]; eauto.
Qed.

(** X10: on a client with the decryption capability, [decryption_set] with a key
    or an aad that fails its checks (length, hexadecimal characters) raises
    [ValueError] and the world is as before: no request is sent. *)
Theorem X10_malformed_keys_never_reach_the_network :
  forall (C : Collaborators) (w : World) (f : Features) (key aad : option string),
    _features (self w) = Some f ->
    has_decryption f = true ->
    key_ok key && aad_ok aad = false ->
    exists args, decryption_set key aad w = (Raise (ValueError args), w).
Proof.
  intros C w f key aad Hf Hd Hbad.
  unfold decryption_set. unfold co_bind at 1 2. rewrite features_returns_cache, Hf.
  cbn [flag lift]. rewrite Hd. cbn [negb]. unfold lift, co_bind.
  destruct (check_key_cases [] key) as [[Hk [data Hck]] | [Hk [msg Hck]]];
    rewrite Hck; [ | eauto].
  destruct (check_aad_cases data aad) as [[Ha [data' Hca]] | [Ha [args Hca]]];
    rewrite Hca; [ | eauto].
  rewrite Hk, Ha in Hbad. discriminate Hbad.
Qed.

Lemma X10_witness :
  exists args,
    @decryption_set silent (Some "0123456789abcdef0123456789abcdeg") None
      (resolved p1_meter)
    = (Raise (ValueError args), resolved p1_meter).
Proof.
  apply (X10_malformed_keys_never_reach_the_network
           silent (resolved p1_meter) p1_meter
           (Some "0123456789abcdef0123456789abcdeg") None);
    reflexivity.
Defined.

Lemma in_hexdigits (c : ascii) :
  existsb (Ascii.eqb c) (list_ascii_of_string hexdigits) = is_hex c.
Proof.
  destruct c as [[] [] [] [] [] [] [] []]; reflexivity.
Qed.

(** X11: the characters [decryption_set] accepts in a key or an aad are the
    digits, [a-f] and [A-F]: membership in [string.hexdigits] is the test of
    the three ranges. *)
Theorem X11_hexdigits_are_the_three_ranges :
  forall s : string,
    all_hexdigits s = forallb is_hex (list_ascii_of_string s).
Proof.
  intro s. unfold all_hexdigits.
  induction (list_ascii_of_string s) as [| c l IH]; [reflexivity | ].
  cbn [forallb]. now rewrite in_hexdigits, IH.
Qed.

(** X12: on a client with the capability, [identify] sends one PUT without a body
    to [api/v1/identify], and [decryption_reset] sends one DELETE to
    [api/v1/decryption] with both flags in the body, also when both are
    [False]. *)
Theorem X12_identify_and_reset_always_send :
  forall (C : Collaborators) (w : World) (f : Features),
    _features (self w) = Some f ->
    (has_identify f = true ->
     identify w
     = (confirmed (fst (request "api/v1/identify" METH_PUT PyNone w)),
        sent w (request_of (self w) "api/v1/identify" METH_PUT PyNone)))
    /\ (has_decryption f = true ->
        forall key aad : bool,
          let body := PyDict [("key", PyBool key); ("aad", PyBool aad)] in
          decryption_reset key aad w
          = (confirmed (fst (request "api/v1/decryption" METH_DELETE body w)),
             sent w (request_of (self w) "api/v1/decryption" METH_DELETE body))).
Proof.
  intros C w f Hf.
  unfold identify, decryption_reset. unfold co_bind at 1 2 4 5.
  rewrite !features_returns_cache, Hf. cbn [flag lift].
  split; intros ->; intros; cbn [negb]; apply send_and_confirm.
Qed.

Lemma X12_witness :
  @decryption_reset (answering (PyDict [])) false false (resolved p1_meter)
  = (Ok true,
     mkWorld (own_session (self (resolved p1_meter)))
       [mkRequest METH_DELETE "http://192.168.1.20/api/v1/decryption"
                  (PyDict [("key", PyBool false); ("aad", PyBool false)])
                  [("Content-Type", "application/json")]]
       []).
Proof.
  apply (proj2 (X12_identify_and_reset_always_send
                  (answering (PyDict [])) (resolved p1_meter) p1_meter eq_refl)).
  reflexivity.
Defined.

Section Readers.
Context `{Builtins} `{Collaborators}.

Lemma request_with_features (path : string) (method : Method) (data : pyval)
      (w : World) (x : option Features) :
  request path method data (with_features w x)
  = (fst (request path method data w),
     with_features (snd (request path method data w)) x).
Proof.
  destruct w as [[h s cs t fs] wi lg].
  unfold request, with_features, request_of, sent, with_session, own_session.
  cbn.
  destruct (transport _ _) as [ | | resp]; [destruct s; reflexivity .. | ].
  destruct (status resp =? 403); [destruct s; reflexivity | ].
  destruct (negb (status resp =? 200)); [destruct s; reflexivity | ].
  destruct (contains _ _); [ | destruct s; reflexivity].
  destruct (json resp); destruct s; reflexivity.
Qed.

End Readers.

(** X13: [data], [system], [decryption] and [device] do not consult the cached
    features: their result, and the requests [data] sends, are the same
    whatever the cache holds, an unresolved cache included. *)
Theorem X13_readers_do_not_consult_the_features :
  forall (B : Builtins) (C : Collaborators) (w : World) (x : option Features),
    fst (data (with_features w x)) = fst (data w)
    /\ fst (system (with_features w x)) = fst (system w)
    /\ fst (decryption (with_features w x)) = fst (decryption w)
    /\ fst (device (with_features w x)) = fst (device w)
    /\ wire (snd (data (with_features w x))) = wire (snd (data w)).
Proof.
  intros B C w x.
  unfold data, system, decryption, device, co_bind.
  rewrite !request_with_features.
  repeat split.
  - destruct (request "api/v1/data" METH_GET PyNone w) as [[v | e] w']; cbn;
      [destruct (Data_from_dict v) | ]; reflexivity.
  - destruct (request "api/v1/system" METH_GET PyNone w) as [[v | e] w']; cbn;
      [destruct (System_from_dict v) | ]; reflexivity.
  - destruct (request "api/v1/decryption" METH_GET PyNone w) as [[v | e] w']; cbn;
      [destruct (Decryption_from_dict v) | ]; reflexivity.
  - destruct (request "api" METH_GET PyNone w) as [[v | e] w']; cbn;
      [ | reflexivity].
    destruct (Device_from_dict v) as [dev | e]; cbn; [ | reflexivity].
    destruct (Features_init _ _); cbn; [ | reflexivity].
    destruct (differs_from _ _); reflexivity.
  - destruct (request "api/v1/data" METH_GET PyNone w) as [[v | e] w']; cbn;
      [destruct (Data_from_dict v) | ]; reflexivity.
Qed.

(** X14: when [state()] returns [None], the cached features are resolved and lack
    the state capability, and nothing was sent; with the capability the
    call returns a [State] or raises. *)
Theorem X14_state_is_None_only_without_capability :
  forall (C : Collaborators) (w w' : World),
    state w = (Ok None, w') ->
    w' = w
    /\ exists f, _features (self w) = Some f /\ has_state f = false.
Proof.
  intros C w w'. unfold state. unfold co_bind at 1 2.
  rewrite features_returns_cache.
  destruct (_features (self w)) as [f | ]; cbn [flag lift]; [ | discriminate].
  destruct (has_state f) eqn:Hs; cbn [negb].
  - unfold co_bind.
    destruct (request_cases "api/v1/state" METH_GET PyNone w) as [r ->].
    destruct r as [v | e]; [ | discriminate].
    unfold lift. destruct (State_from_dict v); discriminate.
  - intros [= <-]. eauto.
Qed.

Lemma X14_witness :
  resolved p1_meter = resolved p1_meter
  /\ exists f, _features (self (resolved p1_meter)) = Some f /\ has_state f = false.
Proof.
  apply (X14_state_is_None_only_without_capability silent
           (resolved p1_meter) (resolved p1_meter)).
  reflexivity.
Defined.

(** ** Runs of operations *)

Section RunFacts.
Context `{Builtins} `{Collaborators}.

Ltac endpoint := simpl; repeat (first [left; reflexivity | right]).

Ltac one_request :=
  match goal with
  | |- context [request ?p ?m ?b ?w] =>
      destruct (request_cases p m b w) as [?r ->]
  end.

Lemma step_effect (w : World) (op : Op) :
  effect w (is_device op) (step w op).
Proof.
  destruct op as [ | | | po sl br | | ce | | | key aad | key aad];
    cbn [step is_device].
  - (* device *)
    unfold device, co_bind. one_request.
    destruct r as [v | e]; cbn; [ | apply eff_sent; endpoint].
    destruct v; cbn; try (apply eff_sent; endpoint).
    destruct (Features_init _ _); cbn; [ | apply eff_sent; endpoint].
    destruct (differs_from _ _); apply eff_device.
  - unfold data, co_bind. one_request.
    destruct r as [v | e]; cbn; apply eff_sent; endpoint.
  - unfold state. unfold co_bind at 1 2. rewrite features_returns_cache.
    destruct (_features (self w)) as [f | ]; cbn; [ | apply eff_none].
    destruct (has_state f); cbn; [ | apply eff_none].
    unfold co_bind. one_request.
    destruct r as [v | e]; cbn; [ | apply eff_sent; endpoint].
    destruct (State_from_dict v); cbn; apply eff_sent; endpoint.
  - unfold state_set. unfold co_bind at 1 2. rewrite features_returns_cache.
    destruct (_features (self w)) as [f | ]; cbn [flag lift snd]; [ | apply eff_none].
    destruct (has_state f); cbn [negb raise snd]; [ | apply eff_none].
    destruct po, sl, br; cbn [put_if app];
      try (rewrite send_and_confirm; apply eff_sent; endpoint).
    cbn. apply eff_log. simpl. auto.
  - unfold system, co_bind. one_request.
    destruct r as [v | e]; cbn; apply eff_sent; endpoint.
  - unfold system_set. unfold co_bind at 1 2. rewrite features_returns_cache.
    destruct (_features (self w)) as [f | ]; cbn [flag lift snd]; [ | apply eff_none].
    destruct (has_system f); cbn [negb raise snd]; [ | apply eff_none].
    destruct ce; cbn [put_if app];
      try (rewrite send_and_confirm; apply eff_sent; endpoint).
    cbn. apply eff_log. simpl. auto.
  - unfold identify. unfold co_bind at 1 2. rewrite features_returns_cache.
    destruct (_features (self w)) as [f | ]; cbn [flag lift snd]; [ | apply eff_none].
    destruct (has_identify f); cbn [negb raise snd]; [ | apply eff_none].
    rewrite send_and_confirm. apply eff_sent; endpoint.
  - unfold decryption, co_bind. one_request.
    destruct r as [v | e]; cbn; apply eff_sent; endpoint.
  - unfold decryption_set. unfold co_bind at 1 2. rewrite features_returns_cache.
    destruct (_features (self w)) as [f | ]; cbn [flag lift snd]; [ | apply eff_none].
    destruct (has_decryption f); cbn [negb raise snd]; [ | apply eff_none].
    unfold lift. unfold co_bind at 1.
    destruct (check_key [] key) as [d | e]; cbv beta iota; [ | apply eff_none].
    unfold co_bind at 1.
    destruct (check_aad d aad) as [d' | e]; cbv beta iota; [ | apply eff_none].
    destruct d'; [cbn; apply eff_log; simpl; auto | ].
    rewrite send_and_confirm. apply eff_sent; endpoint.
  - unfold decryption_reset. unfold co_bind at 1 2. rewrite features_returns_cache.
    destruct (_features (self w)) as [f | ]; cbn [flag lift snd]; [ | apply eff_none].
    destruct (has_decryption f); cbn [negb raise snd]; [ | apply eff_none].
    rewrite send_and_confirm. apply eff_sent; endpoint.
Qed.

End RunFacts.

Section Invariants.
Context `{Builtins} `{Collaborators}.

Lemma run_cons (op : Op) (ops : list Op) (w : World) :
  run (op :: ops) w = run ops (step w op).
Proof. reflexivity. Qed.

Lemma effect_supplied (w w' : World) (fetch : bool) (s : Session) :
  effect w fetch w' ->
  _session (self w) = Some s -> _close_session (self w) = false ->
  _session (self w') = Some s /\ _close_session (self w') = false.
Proof.
  intros He Hs Hc.
  destruct He; cbn; unfold with_session; rewrite ?Hs; cbn; auto.
Qed.

Lemma effect_wire (w w' : World) (fetch : bool) :
  effect w fetch w' ->
  _host (self w') = _host (self w)
  /\ exists added,
       wire w' = (wire w ++ added)%list
       /\ (List.length added <= 1)%nat
       /\ Forall (to_endpoint (_host (self w))) added.
Proof.
  intro He.
  assert (Hhost : forall c, _host (with_session c) = _host c)
    by (intro c; unfold with_session; now destruct (_session c)).
  destruct He as [fetch | fetch msg Hin | fetch m p body Hin | f]; cbn.
  - split; [reflexivity | ]. exists []. rewrite app_nil_r. auto.
  - split; [reflexivity | ]. exists []. rewrite app_nil_r. auto.
  - split; [apply Hhost | ]. eexists. split; [reflexivity | ].
    split; [simpl; lia | ]. constructor; [ | constructor].
    exists m, p. auto.
  - split; [apply Hhost | ]. eexists. split; [reflexivity | ].
    split; [simpl; lia | ]. constructor; [ | constructor].
    exists METH_GET, "api". repeat split. simpl. auto.
Qed.

Lemma effect_owned (w0 w w' : World) (fetch : bool) :
  effect w fetch w' -> owned_since w0 w -> owned_since w0 w'.
Proof.
  intros He [(Hw & Hs & Hc) | (Hw & Hs & Hc)].
  - destruct He as [fetch | fetch msg Hin | fetch m p body Hin | f].
    + left. auto.
    + left. cbn. auto.
    + right. cbn. unfold with_session. rewrite Hs. cbn.
      rewrite length_app, Hw. cbn. repeat split. lia.
    + right. cbn. unfold with_session. rewrite Hs. cbn.
      rewrite length_app, Hw. cbn. repeat split. lia.
  - right.
    destruct He as [fetch | fetch msg Hin | fetch m p body Hin | f]; cbn;
      unfold with_session; rewrite ?Hs; cbn; rewrite ?length_app; cbn;
      repeat split; trivial; lia.
Qed.

Lemma effect_features (w w' : World) :
  effect w false w' -> _features (self w') = _features (self w).
Proof.
  intro He. inversion He; subst; cbn; try reflexivity.
  unfold with_session, own_session. now destruct (_session (self w)).
Qed.

Lemma effect_resolved (w w' : World) (fetch : bool) :
  effect w fetch w' -> _features (self w) <> None -> _features (self w') <> None.
Proof.
  intros He Hf. destruct He; cbn; try exact Hf; try discriminate.
  unfold with_session, own_session. now destruct (_session (self w)).
Qed.

End Invariants.

(** X15: a session supplied by the caller stays the client's session through any
    sequence of calls, and [close()] never closes it. *)
Theorem X15_supplied_session_is_never_closed :
  forall (B : Builtins) (C : Collaborators) (ops : list Op) (w : World)
         (s : Session),
    _session (self w) = Some s ->
    _close_session (self w) = false ->
    _session (self (run ops w)) = Some s
    /\ close (self (run ops w)) = None.
Proof.
  intros B C ops. induction ops as [| op ops IH]; intros w s Hs Hc.
  - cbn. unfold close. now rewrite Hs, Hc.
  - rewrite run_cons.
    destruct (effect_supplied _ _ _ s (step_effect w op) Hs Hc) as [Hs' Hc'].
    now apply IH.
Qed.

Lemma X15_witness :
  close (self (@run example_builtins (answering (device_payload "v1"))
                 [OpDevice; OpState; OpStateSet (Some true) None None]
                 with_supplied_session))
  = None.
Proof.
  apply (X15_supplied_session_is_never_closed example_builtins
           (answering (device_payload "v1"))
           [OpDevice; OpState; OpStateSet (Some true) None None]
           with_supplied_session SuppliedSession);
    reflexivity.
Defined.

(** X16: a client made without a session closes its own session in [close()]
    exactly when a request was sent; before the first request there is
    nothing to close. *)
Theorem X16_own_session_is_closed_once_used :
  forall (B : Builtins) (C : Collaborators) (ops : list Op) (w : World),
    _session (self w) = None ->
    _close_session (self w) = false ->
    close (self (run ops w))
    = if Nat.eqb (List.length (wire (run ops w))) (List.length (wire w))
      then None else Some OwnSession.
Proof.
  intros B C ops w Hs Hc.
  assert (Hinv : forall ops w', owned_since w w' -> owned_since w (run ops w')).
  { clear. intro ops. induction ops as [| op ops IH]; intros w' Hw'; [exact Hw' | ].
    rewrite run_cons. apply IH. exact (effect_owned _ _ _ _ (step_effect w' op) Hw'). }
  destruct (Hinv ops w (or_introl (conj eq_refl (conj Hs Hc))))
    as [(Hw & Hs' & Hc') | (Hw & Hs' & Hc')]; unfold close; rewrite Hs', ?Hc'.
  - now rewrite Hw, Nat.eqb_refl.
  - destruct (Nat.eqb_spec (List.length (wire (run ops w))) (List.length (wire w)));
      [lia | reflexivity].
Qed.

Lemma X16_witness :
  close (self (@run example_builtins (answering (device_payload "v1"))
                 [OpState; OpDevice] fresh))
  = Some OwnSession.
Proof.
  rewrite (X16_own_session_is_closed_once_used example_builtins
             (answering (device_payload "v1")) [OpState; OpDevice] fresh
             eq_refl eq_refl).
  reflexivity.
Defined.

(** X17: through any sequence of calls the host stays the same, requests are only
    appended to the wire, at most one per call, and each of them goes to
    one of the ten method and path pairs of the client, at the client's
    host, with the JSON content type header. *)
Theorem X17_only_the_ten_endpoints_one_request_per_call :
  forall (B : Builtins) (C : Collaborators) (ops : list Op) (w : World),
    _host (self (run ops w)) = _host (self w)
    /\ exists added,
         wire (run ops w) = (wire w ++ added)%list
         /\ (List.length added <= List.length ops)%nat
         /\ Forall (to_endpoint (_host (self w))) added.
Proof.
  intros B C ops. induction ops as [| op ops IH]; intro w.
  - split; [reflexivity | ]. exists []. cbn. rewrite app_nil_r. auto.
  - rewrite run_cons.
    destruct (effect_wire _ _ _ (step_effect w op)) as (Hh & a1 & Hw1 & Hl1 & Hf1).
    destruct (IH (step w op)) as (Hh' & a2 & Hw2 & Hl2 & Hf2).
    split; [congruence | ].
    exists (a1 ++ a2)%list. rewrite Hw2, Hw1, <- app_assoc.
    split; [reflexivity | ]. split; [rewrite length_app; simpl; lia | ].
    apply Forall_app. split; [exact Hf1 | ]. now rewrite <- Hh.
Qed.

(** X18: the cached features change through [device()] only: a sequence of calls
    without [device()] leaves them as they were. *)
Theorem X18_only_device_changes_the_cache :
  forall (B : Builtins) (C : Collaborators) (ops : list Op) (w : World),
    forallb (fun op => negb (is_device op)) ops = true ->
    _features (self (run ops w)) = _features (self w).
Proof.
  intros B C ops. induction ops as [| op ops IH]; intros w Hops; [reflexivity | ].
  cbn [forallb] in Hops. apply andb_prop in Hops as [Hop Hops].
  rewrite run_cons, (IH _ Hops).
  apply effect_features. apply negb_true_iff in Hop. rewrite <- Hop.
  apply step_effect.
Qed.

Lemma X18_witness :
  _features (self (@run example_builtins (answering (device_payload "v1"))
                     [OpData; OpState; OpIdentify; OpDecryptionReset true true]
                     fresh))
  = None.
Proof.
  apply (X18_only_device_changes_the_cache example_builtins
           (answering (device_payload "v1"))
           [OpData; OpState; OpIdentify; OpDecryptionReset true true] fresh).
  reflexivity.
Defined.

(** X19: once the features are resolved they are never unset again, whatever is
    called and whatever fails. *)
Theorem X19_cache_is_never_cleared :
  forall (B : Builtins) (C : Collaborators) (ops : list Op) (w : World),
    _features (self w) <> None ->
    _features (self (run ops w)) <> None.
Proof.
  intros B C ops. induction ops as [| op ops IH]; intros w Hf; [exact Hf | ].
  rewrite run_cons. apply IH. exact (effect_resolved _ _ _ (step_effect w op) Hf).
Qed.

Lemma X19_witness :
  _features (self (@run example_builtins silent
                     [OpDevice; OpData; OpDevice] (resolved socket)))
  <> None.
Proof.
  apply (X19_cache_is_never_cleared example_builtins silent
           [OpDevice; OpData; OpDevice] (resolved socket)).
  discriminate.
Defined.

(** ** The models *)

Section ExternalFacts.
Context `{Builtins}.

Lemma external_loop_elementwise (l : list pyval) (devs : list ExternalDevice) :
  external_loop l = Ok devs ->
  Forall2 (fun x dev => ExternalDevice_from_dict x = Ok dev) l devs.
Proof.
  revert devs. induction l as [| x l IH]; simpl; intros devs Hl.
  - injection Hl as <-. constructor.
  - destruct (ExternalDevice_from_dict x) as [dev | e] eqn:Hx; [ | discriminate].
    simpl in Hl. destruct (external_loop l) as [rest | e]; [ | discriminate].
    injection Hl as <-. constructor; auto.
Qed.

Lemma external_loop_fails (l : list pyval) (x : pyval) (e : exn) :
  In x l -> ExternalDevice_from_dict x = Raise e ->
  exists e', external_loop l = Raise e'.
Proof.
  induction l as [| y l IH]; simpl; [contradiction | ].
  intros [-> | Hin] Hx.
  - rewrite Hx. simpl. eauto.
  - destruct (ExternalDevice_from_dict y); simpl; [ | eauto].
    destruct (IH Hin Hx) as [e' ->]. simpl. eauto.
Qed.

End ExternalFacts.

(** X20: [get_external_devices] on a list returns a list (never [None]) with one
    decoded device per entry, in the order of the entries. *)
Theorem X20_external_list_is_decoded_in_order :
  forall (B : Builtins) (l : list pyval) (r : option (list ExternalDevice)),
    get_external_devices (PyList l) = Ok r ->
    exists devs,
      r = Some devs
      /\ Forall2 (fun x dev => ExternalDevice_from_dict x = Ok dev) l devs.
Proof.
  intros B l r. simpl.
  destruct (external_loop l) as [devs | e] eqn:Hl; [ | discriminate].
  simpl. intros [= <-]. exists devs. split; [reflexivity | ].
  now apply external_loop_elementwise.
Qed.

Lemma X20_witness :
  exists devs,
    Some [mkExternalDevice (PyStr "G001") GAS_METER (PyFloat 1234 (-3))
            (PyStr "m3") (Some (mkDatetime 2023 1 25 22 9 57));
          mkExternalDevice (PyStr "W001") UNKNOWN (PyInt 7) (PyStr "m3") None]
    = Some devs
    /\ Forall2 (fun x dev => @ExternalDevice_from_dict example_builtins x = Ok dev)
         [PyDict [("unique_id", PyStr "G001"); ("type", PyStr "gas_meter");
                  ("value", PyFloat 1234 (-3)); ("unit", PyStr "m3");
                  ("timestamp", PyInt 230125220957)];
          PyDict [("unique_id", PyStr "W001"); ("type", PyStr "sewer");
                  ("value", PyInt 7); ("unit", PyStr "m3")]]
         devs.
Proof.
  apply (X20_external_list_is_decoded_in_order example_builtins).
  reflexivity.
Defined.

(** X21: when one entry of the external list fails to decode, [Data.from_dict]
    fails for the whole payload. *)
Theorem X21_one_bad_external_entry_fails_the_payload :
  forall (B : Builtins) (d : dict) (l : list pyval) (x : pyval) (e : exn),
    dict_get d "external" = PyList l ->
    In x l ->
    ExternalDevice_from_dict x = Raise e ->
    exists e', Data_from_dict (PyDict d) = Raise e'.
Proof.
  intros B d l x e Hd Hin Hx. unfold Data_from_dict. simpl as_dict. cbn [bind].
  destruct (convert_timestamp_to_datetime (dict_get d "montly_power_peak_timestamp"));
    cbn [bind]; [ | eauto].
  destruct (convert_timestamp_to_datetime (dict_get d "gas_timestamp"));
    cbn [bind]; [ | eauto].
  rewrite Hd. simpl.
  destruct (external_loop_fails l x e Hin Hx) as [e' ->]. simpl. eauto.
Qed.

Lemma X21_witness :
  exists e',
    @Data_from_dict example_builtins
      (PyDict [("total_gas_m3", PyFloat 1234 (-3));
               ("external",
                PyList [PyDict [("type", PyStr "gas_meter");
                                ("timestamp", PyStr "not a time")]])])
    = Raise e'.
Proof.
  apply (X21_one_bad_external_entry_fails_the_payload example_builtins _
           [PyDict [("type", PyStr "gas_meter");
                    ("timestamp", PyStr "not a time")]]
           (PyDict [("type", PyStr "gas_meter");
                    ("timestamp", PyStr "not a time")])
           (ValueError
              [Some "time data 'not a time' does not match format '%y%m%d%H%M%S'"])).
  - reflexivity.
  - simpl. auto.
  - reflexivity.
Defined.

(** X22: [DeviceType.from_string] gives each of the five type names its type,
    gives a type other than [UNKNOWN] to those names only, turns [None],
    numbers and booleans into [UNKNOWN], and raises [TypeError] for a list
    or a dict (unhashable, not caught as [KeyError]). *)
Theorem X22_device_type_names :
  (forall (t : DeviceType) (s : string),
     type_text t = Some s -> DeviceType_from_string (PyStr s) = Ok t)
  /\ (forall (s : string) (t : DeviceType),
        DeviceType_from_string (PyStr s) = Ok t ->
        t = UNKNOWN \/ type_text t = Some s)
  /\ (forall v : pyval,
        match v with
        | PyList _ | PyDict _ =>
            exists msg, DeviceType_from_string v = Raise (TypeError msg)
        | PyStr _ => True
        | _ => DeviceType_from_string v = Ok UNKNOWN
        end).
Proof.
  repeat split.
  - intros t s Ht. destruct t; simpl in Ht; try discriminate;
      injection Ht as <-; reflexivity.
  - intros s t. simpl.
    destruct (String.eqb_spec s "gas_meter") as [-> | _];
      [intros [= <-]; right; reflexivity | ].
    destruct (String.eqb_spec s "heat_meter") as [-> | _];
      [intros [= <-]; right; reflexivity | ].
    destruct (String.eqb_spec s "warm_water_meter") as [-> | _];
      [intros [= <-]; right; reflexivity | ].
    destruct (String.eqb_spec s "water_meter") as [-> | _];
      [intros [= <-]; right; reflexivity | ].
    destruct (String.eqb_spec s "inlet_heat_meter") as [-> | _];
      [intros [= <-]; right; reflexivity | ].
    intros [= <-]. now left.
  - intro v. destruct v; simpl; eauto.
Qed.

Ltac known_key :=
  simpl; repeat (first [left; reflexivity | right]).

(** X23: [Data.from_dict] depends on the payload only through the 44 keys it
    reads: payloads that agree on them decode alike, so unknown keys are
    ignored. *)
Theorem X23_data_depends_only_on_the_keys_it_reads :
  forall (B : Builtins) (d1 d2 : dict),
    (forall k, In k Data_keys -> dict_get d1 k = dict_get d2 k) ->
    Data_from_dict (PyDict d1) = Data_from_dict (PyDict d2).
Proof.
  intros B d1 d2 Hsame. unfold Data_from_dict. simpl as_dict. cbn [bind].
  repeat match goal with
         | |- context [dict_get d1 ?k] =>
             rewrite (Hsame k ltac:(known_key))
         end.
  reflexivity.
Qed.

Lemma X23_witness :
  @Data_from_dict example_builtins
    (PyDict (("firmware_note", PyStr "beta") :: data_payload))
  = @Data_from_dict example_builtins (PyDict data_payload).
Proof.
  apply (X23_data_depends_only_on_the_keys_it_reads example_builtins).
  intros k Hk. simpl in Hk.
  repeat (destruct Hk as [<- | Hk]; [reflexivity | ]). contradiction.
Defined.

(* ================================================================== *)
(** * More about the timestamp decoder *)

Module RangeFacts.

Lemma all_ascii_complete (c : ascii) : In c all_ascii.
Proof.
  unfold all_ascii. rewrite <- (ascii_nat_embedding c).
  apply in_map, in_seq. pose proof (nat_ascii_bounded c). lia.
Qed.

Lemma match_alt_texts (a : alt) :
  forall tok, match_alt a tok = Some (tok, []) -> In tok (texts a).
Proof.
  induction a as [| k a IH]; cbn [texts match_alt]; intros tok Hm.
  - destruct tok; [left; reflexivity | discriminate Hm].
  - destruct tok as [| c tok]; [discriminate | ].
    destruct (cls_match k c) eqn:Hc; [ | discriminate].
    destruct (match_alt a tok) as [[t r] | ] eqn:Ha; [ | discriminate].
    injection Hm as -> ->.
    apply in_flat_map. exists c. split.
    + apply filter_In. split; [apply all_ascii_complete | exact Hc].
    + apply in_map, IH, Ha.
Qed.

Lemma bounded_within (D : directive) (lo hi : Z) (tok : list ascii) :
  bounded D lo hi = true -> spells D tok = true -> within lo hi tok = true.
Proof.
  unfold bounded, spells. intros Hb Hp.
  apply existsb_exists in Hp as (a & Hin & Ha).
  destruct (match_alt a tok) as [[t r] | ] eqn:Hm; [ | discriminate].
  destruct r; [ | discriminate].
  destruct (match_alt_split _ _ _ _ Hm) as (Ht & _ & Hm').
  rewrite app_nil_r in Ht. subst t.
  rewrite forallb_forall in Hb. apply Hb.
  apply in_flat_map. exists a. split; [exact Hin | ].
  now apply match_alt_texts.
Qed.

Lemma bounded_res :
  bounded re_y 0 99 = true /\ bounded re_m 1 12 = true
  /\ bounded re_d 1 31 = true /\ bounded re_H 0 23 = true
  /\ bounded re_M 0 59 = true /\ bounded re_S 0 61 = true.
Proof. repeat apply conj; vm_compute; reflexivity. Qed.

End RangeFacts.

Import RangeFacts.

Lemma format_match_spells (s : list ascii) (g : groups) (rest : list ascii) :
  format_match s = Some (g, rest) ->
  spells re_y (g_y g) = true /\ spells re_m (g_m g) = true
  /\ spells re_d (g_d g) = true /\ spells re_H (g_H g) = true
  /\ spells re_M (g_M g) = true /\ spells re_S (g_S g) = true.
Proof.
  destruct short_res as (Sy & Sm & Sd & SH & SM & SS).
  unfold format_match. intro H.
  apply (step_sound _ _ _ _ Sy) in H as (ty & r1 & _ & _ & Py & H).
  apply (step_sound _ _ _ _ Sm) in H as (tm & r2 & _ & _ & Pm & H).
  apply (step_sound _ _ _ _ Sd) in H as (td & r3 & _ & _ & Pd & H).
  apply (step_sound _ _ _ _ SH) in H as (tH & r4 & _ & _ & PH & H).
  apply (step_sound _ _ _ _ SM) in H as (tM & r5 & _ & _ & PM & H).
  apply (step_sound _ _ _ _ SS) in H as (tS & r6 & _ & _ & PS & H).
  injection H as <- _. cbn. auto 10.
Qed.

Lemma within_bounds (lo hi : Z) (tok : list ascii) :
  within lo hi tok = true -> lo <= py_int tok <= hi.
Proof.
  unfold within. intro H. apply andb_prop in H as [H1 H2].
  apply Z.leb_le in H1, H2. lia.
Qed.

Lemma strptime_in_calendar `{Builtins} (s : string) (dt : datetime) :
  strptime s = Ok dt -> in_calendar dt.
Proof.
  unfold strptime.
  destruct (format_match (list_ascii_of_string s)) as [[g [| c rest]] | ] eqn:Hm;
    try discriminate.
  destruct (format_match_spells _ _ _ Hm) as (Py & Pm & Pd & PH & PM & PS).
  destruct bounded_res as (By & Bm & Bd & BH & BM & BS).
  apply (bounded_within _ _ _ _ By), within_bounds in Py.
  apply (bounded_within _ _ _ _ Bm), within_bounds in Pm.
  apply (bounded_within _ _ _ _ Bd), within_bounds in Pd.
  apply (bounded_within _ _ _ _ BH), within_bounds in PH.
  apply (bounded_within _ _ _ _ BM), within_bounds in PM.
  apply (bounded_within _ _ _ _ BS), within_bounds in PS.
  destruct (Z.ltb_spec (days_in_month
              (if py_int (g_y g) <=? 68 then py_int (g_y g) + 2000
               else py_int (g_y g) + 1900) (py_int (g_m g))) (py_int (g_d g)))
    as [ | Hday]; [discriminate | ].
  destruct (Z.ltb_spec 59 (py_int (g_S g))) as [ | Hsec]; [discriminate | ].
  intros [= <-]. unfold in_calendar. cbn [year month day hour minute second].
  destruct (Z.leb_spec (py_int (g_y g)) 68); repeat split; lia.
Qed.

(** X24: a timestamp the decoder returns is a date and time of the calendar, in
    the years 1969 to 2068, whatever the source value was. *)
Theorem X24_decoded_timestamps_are_calendar_dates :
  forall (B : Builtins) (v : pyval) (dt : datetime),
    convert_timestamp_to_datetime v = Ok (Some dt) ->
    in_calendar dt.
Proof.
  intros B v dt Hc.
  assert (Hv : v <> PyNone) by (intros ->; discriminate Hc).
  rewrite (convert_of_value v Hv) in Hc.
  destruct (strptime (py_str v)) as [dt' | e] eqn:Hs; [ | discriminate Hc].
  injection Hc as <-. exact (strptime_in_calendar _ _ Hs).
Qed.

Lemma X24_witness :
  in_calendar (mkDatetime 2023 1 25 22 9 57).
Proof.
  apply (X24_decoded_timestamps_are_calendar_dates example_builtins
           (PyInt 230125220957)).
  reflexivity.
Defined.

(** ** From a datetime to its text and back *)

Lemma digit_char_spec (q : Z) :
  0 <= q <= 9 ->
  is_digit (digit_char q) = true /\ digit_val (digit_char q) = q.
Proof.
  intro Hq.
  assert (Hc : q = 0 \/ q = 1 \/ q = 2 \/ q = 3 \/ q = 4 \/ q = 5 \/ q = 6
               \/ q = 7 \/ q = 8 \/ q = 9) by lia.
  repeat (destruct Hc as [-> | Hc]; [split; reflexivity | ]).
  subst. split; reflexivity.
Qed.

Lemma two_digits_spec (n : Z) :
  0 <= n <= 99 ->
  exists a b,
    is_digit a = true /\ is_digit b = true
    /\ two_digits n = String a (String b EmptyString)
    /\ two a b = n.
Proof.
  intro Hn. unfold two_digits.
  assert (Hq : n / 10 mod 10 = n / 10)
    by (apply Z.mod_small; Z.div_mod_to_equations; lia).
  rewrite Hq.
  destruct (digit_char_spec (n / 10)) as [Da Va];
    [Z.div_mod_to_equations; lia | ].
  destruct (digit_char_spec (n mod 10)) as [Db Vb];
    [Z.div_mod_to_equations; lia | ].
  exists (digit_char (n / 10)), (digit_char (n mod 10)).
  repeat split; trivial.
  unfold two. rewrite Va, Vb. Z.div_mod_to_equations. lia.
Qed.

(** X25: for every calendar date and time in the years 1969 to 2068, its
    twelve-digit text is a valid timestamp and decodes to that date and
    time: the decoder reaches each of them. *)
Theorem X25_format_then_decode_roundtrip :
  forall (B : Builtins) (dt : datetime),
    in_calendar dt ->
    valid_timestamp12 (strftime dt) = true
    /\ convert_timestamp_to_datetime (PyStr (strftime dt)) = Ok (Some dt).
Proof.
  intros B [y m d h n s] (Hy & Hm & Hd & Hh & Hn & Hs).
  cbn [year month day hour minute second] in *.
  destruct (two_digits_spec (y mod 100)) as (y1 & y2 & Dy1 & Dy2 & Ey & Vy);
    [Z.div_mod_to_equations; lia | ].
  pose proof (days_in_month_le_31 y m) as H31.
  destruct (two_digits_spec m) as (m1 & m2 & Dm1 & Dm2 & Em & Vm); [lia | ].
  destruct (two_digits_spec d) as (d1 & d2 & Dd1 & Dd2 & Ed & Vd); [lia | ].
  destruct (two_digits_spec h) as (h1 & h2 & Dh1 & Dh2 & Eh & Vh); [lia | ].
  destruct (two_digits_spec n) as (n1 & n2 & Dn1 & Dn2 & En & Vn); [lia | ].
  destruct (two_digits_spec s) as (s1 & s2 & Ds1 & Ds2 & Es & Vs); [lia | ].
  assert (Hpivot : (if two y1 y2 <=? 68 then two y1 y2 + 2000
                    else two y1 y2 + 1900) = y).
  { rewrite Vy. destruct (Z.leb_spec (y mod 100) 68);
      Z.div_mod_to_equations; lia. }
  unfold strftime. cbn [year month day hour minute second].
  rewrite Ey, Em, Ed, Eh, En, Es.
  change (String y1 (String y2 EmptyString) ++ String m1 (String m2 EmptyString)
          ++ String d1 (String d2 EmptyString) ++ String h1 (String h2 EmptyString)
          ++ String n1 (String n2 EmptyString) ++ String s1 (String s2 EmptyString))
    with (string_of_list_ascii [y1; y2; m1; m2; d1; d2; h1; h2; n1; n2; s1; s2]).
  assert (Hvalid : valid_timestamp12
                     (string_of_list_ascii
                        [y1; y2; m1; m2; d1; d2; h1; h2; n1; n2; s1; s2]) = true).
  { unfold valid_timestamp12. rewrite list_ascii_of_string_of_list_ascii.
    cbn [forallb]. rewrite Dy1, Dy2, Dm1, Dm2, Dd1, Dd2, Dh1, Dh2, Dn1, Dn2, Ds1, Ds2.
    cbn [andb]. cbv zeta.
    replace (2000 + two y1 y2) with (two y1 y2 + 2000) by lia.
    replace (1900 + two y1 y2) with (two y1 y2 + 1900) by lia.
    rewrite Hpivot, Vm, Vd, Vh, Vn, Vs.
    repeat (apply andb_true_intro; split); apply Z.leb_le; lia. }
  split; [exact Hvalid | ].
  unfold convert_timestamp_to_datetime, py_str.
  rewrite (strptime_valid _ _ _ _ _ _ _ _ _ _ _ _ Hvalid).
  cbn [bind]. rewrite Hpivot, Vm, Vd, Vh, Vn, Vs. reflexivity.
Qed.

Lemma X25_witness :
  @convert_timestamp_to_datetime example_builtins
    (PyStr (strftime (mkDatetime 2024 2 29 23 59 59)))
  = Ok (Some (mkDatetime 2024 2 29 23 59 59)).
Proof.
  apply (proj2 (X25_format_then_decode_roundtrip example_builtins
                  (mkDatetime 2024 2 29 23 59 59)
                  ltac:(unfold in_calendar; cbn; lia))).
Defined.

Lemma str_of_number (s : string) (z : Z) :
  number_of s = Some z -> starts_nonzero s = true -> str_of_Z z = s.
Proof.
  unfold number_of, starts_nonzero, str_of_Z.
  destruct s as [| c rest]; [discriminate | ].
  intros Hn Hc. apply andb_prop in Hc as [Hd Hz].
  destruct (NilZero.int_of_string (String c rest)) as [d | ] eqn:Hp;
    [ | discriminate Hn].
  injection Hn as <-. rewrite DecimalZ.to_of.
  assert (Hnorm : Decimal.norm d = d).
  { unfold NilZero.int_of_string in Hp.
    digit_cases Hd; try discriminate Hz;
      cbn in Hp; destruct (NilEmpty.uint_of_string rest); cbn in Hp;
      try discriminate Hp; injection Hp as <-; reflexivity. }
  rewrite Hnorm. exact (NilZero.sis _ _ Hp).
Qed.

(** X26: an integer source value whose decimal text starts with a digit from 1 to
    9 decodes exactly as that text does (the device sends [gas_timestamp]
    as a number). *)
Theorem X26_integer_timestamp_decodes_as_its_text :
  forall (B : Builtins) (s : string) (z : Z),
    number_of s = Some z ->
    starts_nonzero s = true ->
    convert_timestamp_to_datetime (PyInt z)
    = convert_timestamp_to_datetime (PyStr s).
Proof.
  intros B s z Hn Hs. unfold convert_timestamp_to_datetime, py_str.
  now rewrite (str_of_number s z Hn Hs).
Qed.

Lemma X26_witness :
  @convert_timestamp_to_datetime example_builtins (PyInt 230125220957)
  = @convert_timestamp_to_datetime example_builtins (PyStr "230125220957").
Proof.
  apply (X26_integer_timestamp_decodes_as_its_text example_builtins
           "230125220957" 230125220957);
    reflexivity.
Defined.
